(** * kpack-cli: command helper and cluster-builder patch command

    A shallow embedding of
      - [pkg/commands]: the [CommandHelper] shared by the commands
        (execution modes, output routing, object printing, flag lookup);
      - [pkg/commands/clusterbuilder/patch.go]: the [patch] command.

    Go values are embedded as follows.
      - [string] and [[]byte] are Rocq strings (sequences of bytes).
      - [error] is a message; a possibly-nil error is [option error].
      - a function returning [(v, err)] returns a pair.
      - pointers are locations into a heap kept in the world state, so
        that a mutation through a pointer is visible to every holder.
      - effects are threaded by the state monad [Go], whose computations
        either return or panic. *)

From Stdlib Require Import String Ascii List Bool ZArith.
From stdpp Require Import base option gmap strings list.


(** ** The Go monad *)

Definition error := string.

Inductive res (A : Type) : Type :=
| Returns (a : A)
| Panics (why : string).
Arguments Returns {A} a.
Arguments Panics {A} why.

Definition Go (S A : Type) : Type := S → res A * S.

#[export] Instance Go_ret {S} : MRet (Go S) := λ A a s, (Returns a, s).

#[export] Instance Go_bind {S} : MBind (Go S) := λ A B f m s,
  match m s with
  | (Returns a, s') => f a s'
  | (Panics why, s') => (Panics why, s')
  end.

Definition panic {S A} (why : string) : Go S A := λ s, (Panics why, s).
Definition get {S} : Go S S := λ s, (Returns s, s).
Definition modify {S} (f : S → S) : Go S unit := λ s, (Returns tt, f s).

Definition loc := nat.

(** ** package io / ioutil *)

Module io.

Definition handle := nat.

(** An [io.Writer] is either a stream of the process, named by its
    handle, or [ioutil.Discard]. *)
Inductive Writer : Type :=
| Stream (h : handle)
| Discard.

(** The streams of the process: what each one has received so far, the
    streams whose [Write] fails (a closed pipe, a full disk) with the error
    they give, and the log of every [Write] call in order. *)
Record Streams : Type := mkStreams {
  content : gmap handle string;
  failing : gmap handle error;
  calls : list (Writer * string);
}.

Definition received (s : Streams) (h : handle) : string :=
  default "" (content s !! h).

(** [w.Write(p)]: [ioutil.Discard] accepts everything and keeps nothing;
    a failing stream accepts nothing and gives its error. *)
Definition Write (w : Writer) (p : string) (s : Streams)
  : (nat * option error) * Streams :=
  let log := calls s ++ [(w, p)] in
  match w with
  | Discard => ((String.length p, None), mkStreams (content s) (failing s) log)
  | Stream h =>
      match failing s !! h with
      | Some e => ((0, Some e), mkStreams (content s) (failing s) log)
      | None =>
          ((String.length p, None),
           mkStreams (<[h := received s h +:+ p]> (content s)) (failing s) log)
      end
  end.

End io.

(** ** package fmt *)

Definition reflect_Type := string.

(** The operands of a formatting verb. *)
Inductive Arg : Type :=
| ArgString (s : string)
| ArgBool (b : bool)
| ArgInt (n : Z)
| ArgType (t : reflect_Type).

(** [fmt.Sprintf] is a collaborator: the development holds for every
    formatting function. *)
Class Fmt := Sprintf : string → list Arg → string.

(** ** package schema *)

Module schema.

Record GroupVersion : Type := mkGV { gvGroup : string; gvVersion : string }.

Record GroupVersionKind : Type := mkGVK {
  Group : string;
  Version : string;
  Kind : string;
}.

Definition WithKind (gv : GroupVersion) (kind : string) : GroupVersionKind :=
  mkGVK (gvGroup gv) (gvVersion gv) kind.

End schema.

(** ** package strconv *)

Module strconv.

Definition ParseBool `{Fmt} (str : string) : bool * option error :=
  if bool_decide (str ∈ ["1"; "t"; "T"; "true"; "TRUE"; "True"]) then (true, None)
  else if bool_decide (str ∈ ["0"; "f"; "F"; "false"; "FALSE"; "False"])
  then (false, None)
  else (false, Some (Sprintf "strconv.ParseBool: parsing %q: invalid syntax"
                             [ArgString str])).

End strconv.

(** ** package pflag *)

Module pflag.

(** A defined flag: the type name of its value, the value in its string
    form, and whether the user set it on the command line. *)
Record Flag : Type := mkFlag {
  ValueType : string;
  Value : string;
  flagChanged : bool;
}.

(** A flag set maps the names of the defined flags to the flags. *)
Abbreviation FlagSet := (gmap string Flag).

Definition Lookup (f : FlagSet) (name : string) : option Flag := f !! name.

Definition Changed (f : FlagSet) (name : string) : bool :=
  match Lookup f name with
  | None => false
  | Some flag => flagChanged flag
  end.

Definition getFlagType `{Fmt} {A} (f : FlagSet) (name ftype : string)
    (zero : A) (convFunc : string → A * option error) : A * option error :=
  match Lookup f name with
  | None =>
      (zero, Some (Sprintf "flag accessed but not defined: %s" [ArgString name]))
  | Some flag =>
      if negb (ValueType flag =? ftype)%string then
        (zero, Some (Sprintf "trying to get %s value of flag of type %s"
                             [ArgString ftype; ArgString (ValueType flag)]))
      else
        match convFunc (Value flag) with
        | (_, Some e) => (zero, Some e)
        | (v, None) => (v, None)
        end
  end.

Definition GetBool `{Fmt} (f : FlagSet) (name : string) : bool * option error :=
  getFlagType f name "bool" false strconv.ParseBool.

Definition GetString `{Fmt} (f : FlagSet) (name : string)
  : string * option error :=
  getFlagType f name "string" "" (λ sval, (sval, None)).

End pflag.

(** ** package cobra *)

Module cobra.
Import io.

(** The parts of a [cobra.Command] the commands read: its flag set and the
    writers [OutOrStdout()] and [ErrOrStderr()] resolve to. *)
Record Command : Type := mkCommand {
  Flags : pflag.FlagSet;
  OutOrStdout : Writer;
  ErrOrStderr : Writer;
}.

End cobra.

(** ** package commands *)

Module commands.
Import io schema cobra.

(** A [runtime.Object]: its dynamic type, the identity held by its
    [ObjectKind], and the rest of its fields. *)
Record Object : Type := mkObject {
  typeOf : reflect_Type;
  objectKind : GroupVersionKind;
  fields : string;
}.

(** What [PrintObj] does to the registry and to object identities, in
    order. *)
Inductive Event : Type :=
| EvLookup (t : reflect_Type)
| EvSetGroupVersionKind (obj : loc) (gvk : GroupVersionKind).

Record World : Type := mkWorld {
  heap : gmap loc Object;
  streams : Streams;
  trace : list Event;
}.

Definition emit (e : Event) : Go World unit :=
  modify (λ w, mkWorld (heap w) (streams w) (trace w ++ [e])).

Definition deref (obj : loc) : Go World Object := λ w,
  match heap w !! obj with
  | Some o => (Returns o, w)
  | None => (Panics "invalid memory address or nil pointer dereference", w)
  end.

(** [w.Write(p)] *)
Definition Write (wr : Writer) (p : string) : Go World (nat * option error) :=
  λ w, let '(r, s) := io.Write wr p (streams w) in
       (Returns r, mkWorld (heap w) s (trace w)).

(** [obj.GetObjectKind().GroupVersionKind()] *)
Definition GroupVersionKindOf (obj : loc) : Go World GroupVersionKind :=
  o ← deref obj; mret (objectKind o).

(** [obj.GetObjectKind().SetGroupVersionKind(gvk)] *)
Definition SetGroupVersionKind (obj : loc) (gvk : GroupVersionKind)
  : Go World unit :=
  o ← deref obj;
  emit (EvSetGroupVersionKind obj gvk);;
  modify (λ w, mkWorld (<[obj := mkObject (typeOf o) gvk (fields o)]> (heap w))
                       (streams w) (trace w)).

(** [reflect.TypeOf(obj)] *)
Definition TypeOf (obj : loc) : Go World reflect_Type :=
  o ← deref obj; mret (typeOf o).

(** [strings.Builder] *)
Definition Builder := string.
Definition Reset (b : Builder) : Builder := "".
Definition WriteString (b : Builder) (s : string)
  : Builder * (nat * option error) :=
  (b +:+ s, (String.length s, None)).
Definition String_ (b : Builder) : string := b.

(** Modelled from the spec: [k8s.ObjectPrinter] (package [pkg/k8s]) is not
    among the sources; it serializes an object to the configured format and
    writes the result to the writer it is given. *)
Record ObjectPrinter : Type := mkPrinter {
  serialize : Object → string * option error;
}.

Definition PrintObject (p : ObjectPrinter) (obj : loc) (wr : Writer)
  : Go World (option error) :=
  o ← deref obj;
  match serialize p o with
  | (_, Some e) => mret (Some e)
  | (text, None) => '(_, err) ← Write wr text; mret err
  end.

Record CommandHelper : Type := mkHelper {
  dryRun : bool;
  output : bool;
  wait : bool;

  outWriter : Writer;
  errWriter : Writer;

  objPrinter : ObjectPrinter;
  strBuilder : Builder;

  typeToGVK : gmap reflect_Type GroupVersionKind;
}.

Definition IsDryRun (ch : CommandHelper) : bool := dryRun ch.

Definition ShouldWait (ch : CommandHelper) : bool :=
  wait ch && negb (dryRun ch) && negb (output ch).

Definition OutOrErrWriter (ch : CommandHelper) : Writer :=
  if output ch then errWriter ch else outWriter ch.

Definition OutOrDiscardWriter (ch : CommandHelper) : Writer :=
  if output ch then Discard else outWriter ch.

Definition Writer_ (ch : CommandHelper) : Writer := OutOrErrWriter ch.

(** [errors.Errorf] *)
Definition Errorf `{Fmt} (format : string) (a : list Arg) : error :=
  Sprintf format a.

(** [ch.typeToGVK[t]], in its two-result form *)
Definition lookupGVK (ch : CommandHelper) (t : reflect_Type)
  : Go World (GroupVersionKind * bool) :=
  emit (EvLookup t);;
  match typeToGVK ch !! t with
  | Some gvk => mret (gvk, true)
  | None => mret (mkGVK "" "" "", false)
  end.

Definition PrintObj `{Fmt} (ch : CommandHelper) (obj : loc)
  : Go World (option error) :=
  if negb (output ch) then mret None else
  oGVK ← GroupVersionKindOf obj;
  early ←
    (if (Version oGVK =? "")%string || (Kind oGVK =? "")%string then
       t ← TypeOf obj;
       '(nGVK, ok) ← lookupGVK ch t;
       if negb ok then
         t' ← TypeOf obj;
         mret (Some (Errorf "failed to output. unknown type %q" [ArgType t']))
       else
         SetGroupVersionKind obj nGVK;;
         mret None
     else mret None);
  match early with
  | Some e => mret (Some e)
  | None =>
      err ← PrintObject (objPrinter ch) obj (outWriter ch);
      SetGroupVersionKind obj oGVK;;
      mret err
  end.

Fixpoint PrintObjs `{Fmt} (ch : CommandHelper) (objs : list loc)
  : Go World (option error) :=
  match objs with
  | [] => mret None
  | obj :: rest =>
      err ← PrintObj ch obj;
      match err with
      | Some e => mret (Some e)
      | None => PrintObjs ch rest
      end
  end.

Definition newline : string := String "010"%char "".

(** The receiver is a copy of the helper, so the builder that is reset and
    filled here is local to the call. *)
Definition printDryRun `{Fmt} (ch : CommandHelper) (writer : Writer)
    (format : string) (a : list Arg) : Go World (option error) :=
  let b := Reset (strBuilder ch) in
  let str := Sprintf format a in
  let '(b, (_, err)) := WriteString b str in
  match err with
  | Some e => mret (Some e)
  | None =>
      let '(b, err) :=
        if dryRun ch
        then let '(b', (_, err')) := WriteString b " (dry run)" in (b', err')
        else (b, None) in
      match err with
      | Some e => mret (Some e)
      | None =>
          let '(b, _) := WriteString b newline in
          '(_, err) ← Write writer (String_ b);
          mret err
      end
  end.

Definition PrintResult `{Fmt} (ch : CommandHelper) (format : string)
    (args : list Arg) : Go World (option error) :=
  printDryRun ch (OutOrDiscardWriter ch) format args.

Definition PrintStatus `{Fmt} (ch : CommandHelper) (format : string)
    (args : list Arg) : Go World (option error) :=
  printDryRun ch (OutOrErrWriter ch) format args.

(** [fmt.Fprintf(w, format, args...)] *)
Definition Fprintf `{Fmt} (wr : Writer) (format : string) (a : list Arg)
  : Go World (nat * option error) :=
  Write wr (Sprintf format a).

Definition Printlnf `{Fmt} (ch : CommandHelper) (format : string)
    (args : list Arg) : Go World (option error) :=
  '(_, err) ← Fprintf (OutOrErrWriter ch) (format +:+ newline) args;
  mret err.

Definition getBoolFlag `{Fmt} (name : string) (cmd : Command)
  : bool * option error :=
  match pflag.Lookup (Flags cmd) name with
  | None => (false, None)
  | Some flag =>
      if negb (pflag.Changed (Flags cmd) name) then (false, None)
      else
        let '(value, err) := pflag.GetBool (Flags cmd) name in
        match err with
        | Some e => (value, Some e)
        | None => (value, None)
        end
  end.

Definition getStringFlag `{Fmt} (name : string) (cmd : Command)
  : string * option error :=
  match pflag.Lookup (Flags cmd) name with
  | None => ("", None)
  | Some flag =>
      if negb (pflag.Changed (Flags cmd) name) then ("", None)
      else
        let '(value, err) := pflag.GetString (Flags cmd) name in
        match err with
        | Some e => (value, Some e)
        | None => (value, None)
        end
  end.

(** The group names and kind names the registry is built from are
    constants of [k8s.io/api] and of kpack. *)
Class ApiNames := {
  v1_GroupName : string;
  build_GroupName : string;
  BuilderKind : string;
  ClusterStackKind : string;
  ClusterStoreKind : string;
  ClusterBuilderKind : string;
}.

Definition getTypeToGVKLookup `{ApiNames}
  : gmap reflect_Type GroupVersionKind :=
  let v1GV := mkGV v1_GroupName "v1" in
  let buildGV := mkGV build_GroupName "v1alpha1" in
  list_to_map [
    ("*v1.Secret", WithKind v1GV "Secret");
    ("*v1.ServiceAccount", WithKind v1GV "ServiceAccount");
    ("*v1alpha1.Image", WithKind buildGV "Image");
    ("*v1alpha1.Builder", WithKind buildGV BuilderKind);
    ("*v1alpha1.ClusterStack", WithKind buildGV ClusterStackKind);
    ("*v1alpha1.ClusterStore", WithKind buildGV ClusterStoreKind);
    ("*v1alpha1.ClusterBuilder", WithKind buildGV ClusterBuilderKind)
  ].

(** [k8s.NewObjectPrinter] (package [pkg/k8s]) and the zero value of
    [k8s.ObjectPrinter] are collaborators. *)
Class Printers := {
  NewObjectPrinter : string → ObjectPrinter * option error;
  zeroObjectPrinter : ObjectPrinter;
}.

Definition NewCommandHelper `{Fmt} `{ApiNames} `{Printers} (cmd : Command)
  : option CommandHelper * option error :=
  let '(dryRun, err) := getBoolFlag "dry-run" cmd in
  match err with
  | Some e => (None, Some e)
  | None =>
  let '(output, err) := getStringFlag "output" cmd in
  match err with
  | Some e => (None, Some e)
  | None =>
  let '(wait, err) := getBoolFlag "wait" cmd in
  match err with
  | Some e => (None, Some e)
  | None =>
  let outputResource := (0 <? String.length output)%nat in
  let '(objPrinter, err) :=
    if outputResource then NewObjectPrinter output
    else (zeroObjectPrinter, None) in
  match err with
  | Some e => (None, Some e)
  | None =>
      (Some {| dryRun := dryRun;
               output := outputResource;
               wait := wait;
               outWriter := OutOrStdout cmd;
               errWriter := ErrOrStderr cmd;
               objPrinter := objPrinter;
               strBuilder := "";
               typeToGVK := getTypeToGVKLookup |}, None)
  end end end end.

(** *** Specification functions *)

(** One run of [printDryRun]: a single [Write] of the formatted text, the
    suffix when [dryRun] is set, and a newline. *)
Definition dryRunLine `{Fmt} (ch : CommandHelper) (format : string)
    (a : list Arg)
  : string :=
  (Sprintf format a +:+ (if dryRun ch then " (dry run)" else "")) +:+ newline.

(** A flag the command does not define, or defines and the user did not
    set. *)
Definition unset (cmd : Command) (name : string) : Prop :=
  Flags cmd !! name = None ∨
  ∃ flag, Flags cmd !! name = Some flag ∧ pflag.flagChanged flag = false.

(** What [PrintObject] returns and leaves on the streams when the object
    it is given has the value [o]. *)
Definition printed (p : ObjectPrinter) (o : Object) (wr : Writer)
    (s : Streams) : option error * Streams :=
  match serialize p o with
  | (_, Some e) => (Some e, s)
  | (text, None) => ((io.Write wr text s).1.2, (io.Write wr text s).2)
  end.

(** The object as [PrintObj] hands it to the printer: with the identity of
    the registry when its own lacks the version or the kind, and none when
    its type is then not registered. *)
Definition presented (ch : CommandHelper) (o : Object) : option Object :=
  if (Version (objectKind o) =? "")%string || (Kind (objectKind o) =? "")%string
  then (λ nGVK, mkObject (typeOf o) nGVK (fields o))
         <$> typeToGVK ch !! typeOf o
  else Some o.

End commands.

(** ** The API types of the cluster builder *)

Module corev1.

Record ObjectReference : Type := mkObjectReference {
  Kind : string;
  Namespace : string;
  Name : string;
  UID : string;
  APIVersion : string;
  ResourceVersion : string;
  FieldPath : string;
}.

End corev1.

Module v1alpha1.

(** The declarations of kpack and of apimachinery that the patch command
    carries along without looking inside: the type and object metadata (of
    which it reads the name), the entries of a build order and the status
    of a builder. *)
Class Decls := {
  TypeMeta : Type;
  ObjectMeta : Type;
  ObjectMeta_Name : ObjectMeta → string;
  OrderEntry : Type;
  BuilderStatus : Type;
}.

Record BuilderSpec `{Decls} : Type := mkBuilderSpec {
  Tag : string;
  Stack : corev1.ObjectReference;
  Store : corev1.ObjectReference;
  Order : list OrderEntry;
}.

Record ClusterBuilderSpec `{Decls} : Type := mkClusterBuilderSpec {
  builderSpec : BuilderSpec;
  ServiceAccountRef : corev1.ObjectReference;
}.

Record ClusterBuilder `{Decls} : Type := mkClusterBuilder {
  typeMeta : TypeMeta;
  objectMeta : ObjectMeta;
  Spec : ClusterBuilderSpec;
  Status : BuilderStatus;
}.

Arguments mkBuilderSpec {_} _ _ _ _.
Arguments mkClusterBuilderSpec {_} _ _.
Arguments mkClusterBuilder {_} _ _ _ _.

End v1alpha1.

(** ** package clusterbuilder: the patch command *)

Module clusterbuilder.
Import io cobra v1alpha1.

Inductive PatchType : Type :=
| JSONPatchType
| MergePatchType
| StrategicMergePatchType
| ApplyPatchType.

(** The calls made on the cluster-builder client, in order. *)
Inductive Request : Type :=
| ReqGet (name : string)
| ReqPatch (name : string) (pt : PatchType) (data : string).

Section command.
Context `{Fmt} `{Decls}.

(** The world of one invocation: the objects behind the pointers the
    command holds, the streams, the cluster builders the server stores, an
    outage that makes every call to the server fail, and the calls made. *)
Record World : Type := mkWorld {
  heap : gmap loc ClusterBuilder;
  streams : Streams;
  server : gmap string ClusterBuilder;
  outage : option error;
  requests : list Request;
}.

(** The collaborators that are not among the sources: [k8s.CreatePatch]
    (package [pkg/k8s]), [builder.ReadOrder] (package [pkg/builder]), and
    the server's side of [Get] and [Patch]. *)
Class Collaborators := {
  CreatePatch : ClusterBuilder → ClusterBuilder → string * option error;
  ReadOrder : string → list OrderEntry * option error;
  notFound : string → error;
  applyPatch : PatchType → string → ClusterBuilder
               → ClusterBuilder * option error;
}.
Context `{Collaborators}.

(** [k8s.ClientSet] and [k8s.ClientSetProvider] *)
Record ClientSet : Type := mkClientSet { csNamespace : string }.

Record ClientSetProvider : Type := mkProvider {
  GetClientSet : string → option ClientSet * option error;
}.

Definition deref (obj : loc) : Go World ClusterBuilder := λ w,
  match heap w !! obj with
  | Some o => (Returns o, w)
  | None => (Panics "invalid memory address or nil pointer dereference", w)
  end.

Definition alloc (o : ClusterBuilder) : Go World loc := λ w,
  let l := fresh (dom (heap w)) in
  (Returns l,
   mkWorld (<[l := o]> (heap w)) (streams w) (server w) (outage w) (requests w)).

Definition update (obj : loc) (f : ClusterBuilder → ClusterBuilder)
  : Go World unit :=
  o ← deref obj;
  modify (λ w, mkWorld (<[obj := f o]> (heap w)) (streams w) (server w)
                       (outage w) (requests w)).

Definition request (r : Request) : Go World unit :=
  modify (λ w, mkWorld (heap w) (streams w) (server w) (outage w)
                       (requests w ++ [r])).

Definition Write (wr : Writer) (p : string) : Go World (nat * option error) :=
  λ w, let '(r, s) := io.Write wr p (streams w) in
       (Returns r, mkWorld (heap w) s (server w) (outage w) (requests w)).

(** [cs.KpackClient.KpackV1alpha1().ClusterBuilders().Get(name, opts)] *)
Definition Get (cs : ClientSet) (name : string)
  : Go World (option loc * option error) :=
  request (ReqGet name);;
  w ← get;
  match outage w with
  | Some e => mret (None, Some e)
  | None =>
      match server w !! name with
      | None => mret (None, Some (notFound name))
      | Some o => l ← alloc o; mret (Some l, None)
      end
  end.

(** [cs.KpackClient.KpackV1alpha1().ClusterBuilders().Patch(name, pt, data)] *)
Definition Patch (cs : ClientSet) (name : string) (pt : PatchType)
    (data : string) : Go World (option loc * option error) :=
  request (ReqPatch name pt data);;
  w ← get;
  match outage w with
  | Some e => mret (None, Some e)
  | None =>
      match server w !! name with
      | None => mret (None, Some (notFound name))
      | Some o =>
          match applyPatch pt data o with
          | (_, Some e) => mret (None, Some e)
          | (o', None) =>
              modify (λ w, mkWorld (heap w) (streams w)
                                   (<[name := o']> (server w))
                                   (outage w) (requests w));;
              l ← alloc o';
              mret (Some l, None)
          end
      end
  end.

(** [ccb.DeepCopy()]: a new object with the same value *)
Definition DeepCopy (obj : loc) : Go World loc :=
  o ← deref obj; alloc o.

Definition setName (name : string) (r : corev1.ObjectReference)
  : corev1.ObjectReference :=
  corev1.mkObjectReference (corev1.Kind r) (corev1.Namespace r) name
    (corev1.UID r) (corev1.APIVersion r) (corev1.ResourceVersion r)
    (corev1.FieldPath r).

Definition withBuilderSpec (f : BuilderSpec → BuilderSpec)
    (o : ClusterBuilder) : ClusterBuilder :=
  mkClusterBuilder (typeMeta o) (objectMeta o)
    (mkClusterBuilderSpec (f (builderSpec (Spec o)))
                          (ServiceAccountRef (Spec o)))
    (Status o).

(** [o.Spec.Stack.Name = stack] *)
Definition setStackName (stack : string) : ClusterBuilder → ClusterBuilder :=
  withBuilderSpec (λ b,
    mkBuilderSpec (Tag b) (setName stack (Stack b)) (Store b) (Order b)).

(** [o.Spec.Store.Name = store] *)
Definition setStoreName (store : string) : ClusterBuilder → ClusterBuilder :=
  withBuilderSpec (λ b,
    mkBuilderSpec (Tag b) (Stack b) (setName store (Store b)) (Order b)).

(** [o.Spec.Order = orderEntries] *)
Definition setOrder (orderEntries : list OrderEntry)
  : ClusterBuilder → ClusterBuilder :=
  withBuilderSpec (λ b,
    mkBuilderSpec (Tag b) (Stack b) (Store b) orderEntries).

Definition newline : string := String "010"%char "".
Definition dquote : string := String "034"%char "".

(** [fmt.Fprintln(w, s)] for one string operand *)
Definition Fprintln (wr : Writer) (s : string) : Go World (nat * option error) :=
  Write wr (s +:+ newline).

(** [fmt.Fprintf(w, format, args...)] *)
Definition Fprintf (wr : Writer) (format : string) (a : list Arg)
  : Go World (nat * option error) :=
  Write wr (Sprintf format a).

(** Lines 42 to 59 of [RunE]: the deep copy of the observed object and the
    mutations the flags ask for. The result is the pointer to the desired
    object, or the error of [builder.ReadOrder]. *)
Definition patched (ccb : loc) (stack store order : string)
  : Go World (loc * option error) :=
  patchedCcb ← DeepCopy ccb;
  (if negb (stack =? "")%string
   then update patchedCcb (setStackName stack) else mret tt);;
  (if negb (store =? "")%string
   then update patchedCcb (setStoreName store) else mret tt);;
  if negb (order =? "")%string then
    let '(orderEntries, err) := ReadOrder order in
    match err with
    | Some e => mret (patchedCcb, Some e)
    | None =>
        update patchedCcb (setOrder orderEntries);;
        mret (patchedCcb, None)
    end
  else mret (patchedCcb, None).

(** The [RunE] function of the command [NewPatchCommand] builds, with the
    values of the flags [stack], [store] and [order]. *)
Definition RunE (clientSetProvider : ClientSetProvider)
    (stack store order : string) (cmd : Command) (args : list string)
  : Go World (option error) :=
  match GetClientSet clientSetProvider "" with
  | (_, Some e) => mret (Some e)
  | (None, None) => panic "invalid memory address or nil pointer dereference"
  | (Some cs, None) =>
  match args with
  | [] => panic "index out of range [0] with length 0"
  | name :: _ =>
  '(got, err) ← Get cs name;
  match got, err with
  | _, Some e => mret (Some e)
  | None, None => panic "invalid memory address or nil pointer dereference"
  | Some ccb, None =>
  '(patchedCcb, err) ← patched ccb stack store order;
  match err with
  | Some e => mret (Some e)
  | None =>
  o ← deref ccb;
  p ← deref patchedCcb;
  let '(patch, err) := CreatePatch o p in
  match err with
  | Some e => mret (Some e)
  | None =>
  if (String.length patch =? 0)%nat then
    '(_, err) ← Fprintln (OutOrStdout cmd) "nothing to patch";
    mret err
  else
    '(_, err) ← Patch cs name MergePatchType patch;
    match err with
    | Some e => mret (Some e)
    | None =>
        o ← deref ccb;
        '(_, err) ← Fprintf (OutOrStdout cmd)
                      (dquote +:+ "%s" +:+ dquote +:+ " patched" +:+ newline)
                      [ArgString (ObjectMeta_Name (objectMeta o))];
        mret err
    end
  end end end end end.

(** *** Specification functions *)

(** The order read for the flag [order]: none when the flag is empty. *)
Definition orderRead (order : string) : option (list OrderEntry) :=
  if (order =? "")%string then None else Some (ReadOrder order).1.

(** The value [patched] leaves in the desired object, from the value of
    the observed one; [entries] is the order read from the file, if one
    was asked for and read. *)
Definition desired (o : ClusterBuilder) (stack store : string)
    (entries : option (list OrderEntry)) : ClusterBuilder :=
  let o1 := if (stack =? "")%string then o else setStackName stack o in
  let o2 := if (store =? "")%string then o1 else setStoreName store o1 in
  match entries with
  | Some orderEntries => setOrder orderEntries o2
  | None => o2
  end.

(** Two references that agree on every field but the name. *)
Definition sameButName (r r' : corev1.ObjectReference) : Prop :=
  corev1.Kind r = corev1.Kind r' ∧
  corev1.Namespace r = corev1.Namespace r' ∧
  corev1.UID r = corev1.UID r' ∧
  corev1.APIVersion r = corev1.APIVersion r' ∧
  corev1.ResourceVersion r = corev1.ResourceVersion r' ∧
  corev1.FieldPath r = corev1.FieldPath r'.

(** The order [patched] assigns: none when the flag is empty or the file
    cannot be read. *)
Definition orderAssigned (order : string) : option (list OrderEntry) :=
  if (order =? "")%string then None
  else match ReadOrder order with
       | (_, Some _) => None
       | (orderEntries, None) => Some orderEntries
       end.

(** The error of reading the order, if the flag asks for one. *)
Definition orderError (order : string) : option error :=
  if (order =? "")%string then None else (ReadOrder order).2.

End command.
End clusterbuilder.

(** * Sample inputs *)

Module sample.
Import io schema cobra commands.

(** A formatting function that leaves the verbs in place. *)
Definition plainSprintf : Fmt := λ format _, format.

(** A printer that writes the fields of the object. *)
Definition fieldsPrinter : ObjectPrinter := mkPrinter (λ o, (fields o, None)).

Definition stdout : Writer := Stream 1.
Definition stderr : Writer := Stream 2.

Definition outputHelper : CommandHelper :=
  mkHelper false true false stdout stderr fieldsPrinter "" ∅.

Definition narrativeHelper : CommandHelper :=
  mkHelper false false true stdout stderr fieldsPrinter "" ∅.

Definition image : Object :=
  mkObject "*v1alpha1.Image" (mkGVK "kpack.io" "v1alpha1" "Image") "tag: app".

Definition bare : Object :=
  mkObject "*v1.ConfigMap" (mkGVK "" "" "") "data: {}".

Definition quiet : Streams := mkStreams ∅ ∅ [].

Definition world : World := mkWorld {[ 0 := image; 1 := bare ]} quiet [].

Definition command : Command := mkCommand ∅ stdout stderr.

Definition apiNames : ApiNames := {|
  v1_GroupName := "";
  build_GroupName := "kpack.io";
  BuilderKind := "Builder";
  ClusterStackKind := "ClusterStack";
  ClusterStoreKind := "ClusterStore";
  ClusterBuilderKind := "ClusterBuilder";
|}.

Definition printers : Printers := {|
  NewObjectPrinter := λ format,
    if bool_decide (format ∈ ["yaml"; "json"]) then (fieldsPrinter, None)
    else (fieldsPrinter, Some "unsupported output format");
  zeroObjectPrinter := fieldsPrinter;
|}.

(** A printer whose serialization fails. *)
Definition brokenPrinter : ObjectPrinter :=
  mkPrinter (λ _, ("", Some "unable to serialize"))%string.

Definition brokenHelper : CommandHelper :=
  mkHelper false true false stdout stderr brokenPrinter "" ∅.

(** A world whose error stream is closed. *)
Definition closedError : World :=
  mkWorld {[ 0 := image; 1 := bare ]}
          (mkStreams ∅ {[ 2 := "write /dev/stderr: broken pipe" ]} []) [].

(** A command run with [--dry-run --output yaml]; its [wait] flag is
    defined and not set. *)
Definition flaggedCommand : Command :=
  mkCommand {[ "dry-run" := pflag.mkFlag "bool" "true" true;
               "output" := pflag.mkFlag "string" "yaml" true;
               "wait" := pflag.mkFlag "bool" "false" false ]}
            stdout stderr.

(** A command whose [wait] flag is a string flag. *)
Definition oddCommand : Command :=
  mkCommand {[ "wait" := pflag.mkFlag "string" "yes" true ]} stdout stderr.

End sample.

Module samplePatch.
Import io cobra v1alpha1 clusterbuilder.

Definition decls : Decls := {|
  TypeMeta := string * string;
  ObjectMeta := string;
  ObjectMeta_Name := λ name, name;
  OrderEntry := list string;
  BuilderStatus := string;
|}.

Definition ref (kind name : string) : corev1.ObjectReference :=
  corev1.mkObjectReference kind "" name "" "" "" "".

Definition builder : @ClusterBuilder decls :=
  @mkClusterBuilder decls ("ClusterBuilder", "kpack.io/v1alpha1") "my-builder"
    (@mkClusterBuilderSpec decls
       (@mkBuilderSpec decls "registry.io/builder" (ref "ClusterStack" "base")
                       (ref "ClusterStore" "default") [["org.go"]])
       (ref "ServiceAccount" "builder-sa"))
    "Ready".

(** A stand-in for [k8s.CreatePatch]: empty when the names of the stack and
    of the store and the order agree, and naming the desired stack and store
    otherwise. *)
Definition createPatch (o d : @ClusterBuilder decls) : string * option error :=
  let bo := builderSpec (Spec o) in
  let bd := builderSpec (Spec d) in
  if (corev1.Name (Stack bo) =? corev1.Name (Stack bd))%string
     && (corev1.Name (Store bo) =? corev1.Name (Store bd))%string
     && bool_decide ((Order bo : list (list string)) = Order bd)
  then ("", None)
  else ("{spec:{stack:" +:+ corev1.Name (Stack bd) +:+ ",store:"
        +:+ corev1.Name (Store bd) +:+ "}}", None).

Definition readOrder (path : string) : list (list string) * option error :=
  if (path =? "order.yaml")%string then ([["org.go"; "org.node"]], None)
  else ([], Some "open: no such file or directory").

Definition collaborators : @Collaborators decls := {|
  CreatePatch := createPatch;
  ReadOrder := readOrder : string → list (@OrderEntry decls) * option error;
  notFound := λ name, "clusterbuilders " +:+ name +:+ " not found";
  applyPatch := λ _ _ o, (o, None);
|}.

Definition provider : ClientSetProvider :=
  mkProvider (λ _, (Some (mkClientSet "default"), None)).

Definition command : Command := mkCommand ∅ (Stream 1) (Stream 2).

(** A world whose server stores [builder]. *)
Definition world : @World decls :=
  mkWorld ∅ (mkStreams ∅ ∅ []) {[ "my-builder" := builder ]} None [].

(** The same world with the output of the command closed. *)
Definition closedOutput : @World decls :=
  mkWorld ∅ (mkStreams ∅ {[ 1 := "write /dev/stdout: broken pipe" ]} [])
          {[ "my-builder" := builder ]} None [].

(** The world after the object was fetched. *)
Definition fetched : @World decls :=
  mkWorld {[ 0 := builder ]} (mkStreams ∅ ∅ []) {[ "my-builder" := builder ]}
          None [ReqGet "my-builder"].

(** A provider that has no configuration to build a client set from. *)
Definition noProvider : ClientSetProvider :=
  mkProvider (λ _, (None, Some "no kubeconfig")).

(** The same world while the server cannot be reached. *)
Definition unreachable : @World decls :=
  mkWorld ∅ (mkStreams ∅ ∅ []) {[ "my-builder" := builder ]}
          (Some "connection refused") [].

(** Collaborators whose [CreatePatch] fails. *)
Definition noPatch : @Collaborators decls := {|
  CreatePatch := λ _ _, ("", Some "cannot marshal");
  ReadOrder := readOrder : string → list (@OrderEntry decls) * option error;
  notFound := λ name, "clusterbuilders " +:+ name +:+ " not found";
  applyPatch := λ _ _ o, (o, None);
|}.

(** Collaborators whose server rejects every patch. *)
Definition rejecting : @Collaborators decls := {|
  CreatePatch := createPatch;
  ReadOrder := readOrder : string → list (@OrderEntry decls) * option error;
  notFound := λ name, "clusterbuilders " +:+ name +:+ " not found";
  applyPatch := λ _ _ o, (o, Some "admission webhook denied the request");
|}.

End samplePatch.

(** * Running computations of the Go monad *)

Lemma bind_run {S A B} (m : Go S A) (f : A → Go S B) (s s' : S) (a : A) :
  m s = (Returns a, s') → (m ≫= f) s = f a s'.
Proof. intros E. unfold mbind, Go_bind. by rewrite E. Qed.

Lemma bind_panics {S A B} (m : Go S A) (f : A → Go S B) (s s' : S) why :
  m s = (Panics why, s') → (m ≫= f) s = (Panics why, s').
Proof. intros E. unfold mbind, Go_bind. by rewrite E. Qed.

Lemma ret_run {S A} (a : A) (s : S) : (mret a : Go S A) s = (Returns a, s).
Proof. reflexivity. Qed.

(** * Properties of the command helper *)

Section helper_properties.
Import io schema cobra commands.
Context `{Fmt}.

Lemma append_cons (x : ascii) (a b : string) :
  String x a +:+ b = String x (a +:+ b).
Proof. reflexivity. Qed.

Lemma append_nil_l (a : string) : "" +:+ a = a.
Proof. reflexivity. Qed.

Lemma append_inv_head (s a b : string) : s +:+ a = s +:+ b → a = b.
Proof. apply (inj (String.append s)). Qed.

Lemma append_assoc (a b c : string) : (a +:+ b) +:+ c = a +:+ (b +:+ c).
Proof.
  induction a as [|x a IH]; [done|].
  by rewrite !append_cons, IH.
Qed.

Lemma append_nil_r (a : string) : a +:+ "" = a.
Proof.
  induction a as [|x a IH]; [done|].
  by rewrite append_cons, IH.
Qed.

Lemma printDryRun_run ch wr format a w :
  printDryRun ch wr format a w =
  (Returns (io.Write wr (dryRunLine ch format a) (streams w)).1.2,
   mkWorld (heap w) (io.Write wr (dryRunLine ch format a) (streams w)).2
           (trace w)).
Proof.
  unfold printDryRun, dryRunLine, Reset, WriteString, String_.
  rewrite append_nil_l.
  destruct (dryRun ch); cbn; rewrite ?append_nil_r;
    unfold Write, mbind, Go_bind, mret, Go_ret;
    by destruct (io.Write _ _ _) as [[n e] s].
Qed.

Lemma Write_calls wr p s :
  calls (io.Write wr p s).2 = calls s ++ [(wr, p)].
Proof.
  unfold io.Write. destruct wr as [h|]; [|done].
  by destruct (failing s !! h).
Qed.

(** C1. [ShouldWait] holds exactly when [wait] is set, [dryRun] is not and
    no output format was requested, on each of the eight combinations of
    the three modes. *)
Theorem ShouldWait_iff (ch : CommandHelper) :
  ShouldWait ch = true ↔
  wait ch = true ∧ dryRun ch = false ∧ output ch = false.
Proof.
  unfold ShouldWait.
  destruct (wait ch), (dryRun ch), (output ch); cbn; intuition congruence.
Qed.

(** C3. [PrintResult] and [PrintStatus] each make one [Write], of the
    formatted text followed by the suffix [" (dry run)"] and a newline when
    [dryRun] is set, and of the formatted text followed by the newline alone
    otherwise; the suffix is there if and only if [dryRun] is set. *)
Theorem dry_run_suffix (ch : CommandHelper) (format : string)
    (args : list Arg) (w : World) :
  ∃ line,
    calls (streams (PrintResult ch format args w).2)
      = calls (streams w) ++ [(OutOrDiscardWriter ch, line)] ∧
    calls (streams (PrintStatus ch format args w).2)
      = calls (streams w) ++ [(OutOrErrWriter ch, line)] ∧
    (dryRun ch = true ↔
       line = (Sprintf format args +:+ " (dry run)") +:+ newline) ∧
    (dryRun ch = false ↔ line = Sprintf format args +:+ newline).
Proof.
  exists (dryRunLine ch format args).
  unfold PrintResult, PrintStatus. rewrite !printDryRun_run. cbn.
  rewrite !Write_calls. repeat split; try done.
  - intros E. unfold dryRunLine. by rewrite E.
  - unfold dryRunLine. destruct (dryRun ch); [done|].
    rewrite !append_assoc. intros E%append_inv_head. discriminate E.
  - intros E. unfold dryRunLine. by rewrite E, append_nil_r.
  - unfold dryRunLine. destruct (dryRun ch); [|done].
    rewrite append_assoc. intros E%append_inv_head. discriminate E.
Qed.

(** C7. In output mode the writer of [PrintStatus] and [Printlnf] is the
    error stream and the writer of [PrintResult] is [ioutil.Discard], which
    accepts every write and changes no stream; out of output mode all
    three write to the primary output stream. *)
Theorem output_mode_routing (ch : CommandHelper) :
  (output ch = true →
     OutOrErrWriter ch = errWriter ch ∧ OutOrDiscardWriter ch = Discard) ∧
  (output ch = false →
     OutOrErrWriter ch = outWriter ch ∧ OutOrDiscardWriter ch = outWriter ch) ∧
  (∀ p s, (io.Write Discard p s).1 = (String.length p, None) ∧
          content (io.Write Discard p s).2 = content s ∧
          failing (io.Write Discard p s).2 = failing s) ∧
  (∀ format args w,
     (∃ line, calls (streams (PrintStatus ch format args w).2)
                = calls (streams w) ++ [(OutOrErrWriter ch, line)]) ∧
     (∃ line, calls (streams (Printlnf ch format args w).2)
                = calls (streams w) ++ [(OutOrErrWriter ch, line)]) ∧
     (∃ line, calls (streams (PrintResult ch format args w).2)
                = calls (streams w) ++ [(OutOrDiscardWriter ch, line)])).
Proof.
  unfold OutOrErrWriter, OutOrDiscardWriter.
  split; [by intros ->|]. split; [by intros ->|]. split; [done|].
  intros format args w. unfold PrintStatus, PrintResult, Printlnf, Fprintf.
  rewrite !printDryRun_run. cbn. rewrite !Write_calls.
  split; [by eexists|]. split; [|by eexists].
  unfold Write, mbind, Go_bind, mret, Go_ret.
  pose proof (Write_calls (OutOrErrWriter ch)
                (Sprintf (format +:+ newline) args) (streams w)) as E.
  unfold OutOrErrWriter in E.
  destruct (io.Write _ _ _) as [[n e] s]. cbn in *. eauto.
Qed.

Lemma deref_run obj w o :
  heap w !! obj = Some o → deref obj w = (Returns o, w).
Proof. intros Ho. unfold deref. by rewrite Ho. Qed.

Lemma GroupVersionKindOf_run obj w o :
  heap w !! obj = Some o →
  GroupVersionKindOf obj w = (Returns (objectKind o), w).
Proof.
  intros Ho. unfold GroupVersionKindOf.
  by rewrite (bind_run _ _ _ _ _ (deref_run _ _ _ Ho)).
Qed.

Lemma TypeOf_run obj w o :
  heap w !! obj = Some o → TypeOf obj w = (Returns (typeOf o), w).
Proof.
  intros Ho. unfold TypeOf.
  by rewrite (bind_run _ _ _ _ _ (deref_run _ _ _ Ho)).
Qed.

Lemma lookupGVK_run ch t w :
  lookupGVK ch t w =
  (Returns (match typeToGVK ch !! t with
            | Some gvk => (gvk, true)
            | None => (mkGVK "" "" "", false)
            end),
   mkWorld (heap w) (streams w) (trace w ++ [EvLookup t])).
Proof.
  unfold lookupGVK, emit, modify, mbind, Go_bind.
  by destruct (typeToGVK ch !! t).
Qed.

Lemma PrintObject_run p obj wr w o :
  heap w !! obj = Some o →
  PrintObject p obj wr w =
  (Returns (printed p o wr (streams w)).1,
   mkWorld (heap w) (printed p o wr (streams w)).2 (trace w)).
Proof.
  intros Ho. unfold PrintObject, printed.
  rewrite (bind_run _ _ _ _ _ (deref_run _ _ _ Ho)).
  destruct (serialize p o) as [text [e|]]; cbn.
  - by destruct w.
  - unfold Write, mbind, Go_bind. by destruct (io.Write _ _ _) as [[n e] s].
Qed.

Lemma SetGroupVersionKind_run obj gvk w o :
  heap w !! obj = Some o →
  SetGroupVersionKind obj gvk w =
  (Returns tt,
   mkWorld (<[obj := mkObject (typeOf o) gvk (fields o)]> (heap w))
           (streams w) (trace w ++ [EvSetGroupVersionKind obj gvk])).
Proof.
  intros Ho. unfold SetGroupVersionKind.
  by rewrite (bind_run _ _ _ _ _ (deref_run _ _ _ Ho)).
Qed.

(** The three ways through [PrintObj] in output mode. *)
Lemma PrintObj_run ch obj w o :
  output ch = true →
  heap w !! obj = Some o →
  PrintObj ch obj w =
  let oGVK := objectKind o in
  if (Version oGVK =? "")%string || (Kind oGVK =? "")%string then
    match typeToGVK ch !! typeOf o with
    | None =>
        (Returns (Some (Errorf "failed to output. unknown type %q"
                               [ArgType (typeOf o)])),
         mkWorld (heap w) (streams w) (trace w ++ [EvLookup (typeOf o)]))
    | Some nGVK =>
        let r := printed (objPrinter ch) (mkObject (typeOf o) nGVK (fields o))
                         (outWriter ch) (streams w) in
        (Returns r.1,
         mkWorld (heap w) r.2
                 (trace w ++ [EvLookup (typeOf o);
                              EvSetGroupVersionKind obj nGVK;
                              EvSetGroupVersionKind obj oGVK]))
    end
  else
    let r := printed (objPrinter ch) o (outWriter ch) (streams w) in
    (Returns r.1,
     mkWorld (heap w) r.2 (trace w ++ [EvSetGroupVersionKind obj oGVK])).
Proof.
  intros Hout Ho. unfold PrintObj. rewrite Hout. cbn [negb].
  assert (Hid : ∀ g, <[obj := mkObject (typeOf o) (objectKind o) (fields o)]>
                       (<[obj := mkObject (typeOf o) g (fields o)]> (heap w))
                     = heap w).
  { intros g. rewrite insert_insert_eq. apply insert_id. by destruct o. }
  rewrite (bind_run _ _ _ _ _ (GroupVersionKindOf_run _ _ _ Ho)).
  destruct ((Version (objectKind o) =? "")%string ||
            (Kind (objectKind o) =? "")%string) eqn:Hempty; cbn zeta.
  - destruct (typeToGVK ch !! typeOf o) as [nGVK|] eqn:Hreg.
    + erewrite bind_run; cycle 1.
      { rewrite (bind_run _ _ _ _ _ (TypeOf_run _ _ _ Ho)).
        erewrite bind_run by apply lookupGVK_run.
        rewrite Hreg. cbn [negb].
        erewrite bind_run by (apply SetGroupVersionKind_run; exact Ho).
        apply ret_run. }
      cbn beta iota.
      erewrite bind_run by (apply PrintObject_run; apply lookup_insert_eq).
      erewrite bind_run
        by (apply SetGroupVersionKind_run; apply lookup_insert_eq).
      rewrite ret_run. cbn. rewrite Hid. by rewrite <- !app_assoc.
    + erewrite bind_run; cycle 1.
      { rewrite (bind_run _ _ _ _ _ (TypeOf_run _ _ _ Ho)).
        erewrite bind_run by apply lookupGVK_run.
        rewrite Hreg. cbn [negb].
        erewrite bind_run by (apply TypeOf_run; exact Ho).
        apply ret_run. }
      reflexivity.
  - rewrite (bind_run _ _ _ _ _ (ret_run None w)).
    erewrite bind_run by (apply PrintObject_run; exact Ho).
    erewrite bind_run by (apply SetGroupVersionKind_run; exact Ho).
    rewrite ret_run. cbn. f_equal. f_equal. apply insert_id. by destruct o.
Qed.

Lemma PrintObj_no_output ch obj w :
  output ch = false → PrintObj ch obj w = (Returns None, w).
Proof. intros Hout. unfold PrintObj. by rewrite Hout. Qed.

Lemma empty_or_iff (a b : string) :
  (a =? "")%string || (b =? "")%string = true ↔ a = "" ∨ b = "".
Proof. by rewrite orb_true_iff, !String.eqb_eq. Qed.

(** A pointer to no object makes [PrintObj] panic in output mode, as the
    method call on a nil object does. *)
Lemma PrintObj_nil ch obj w :
  output ch = true →
  heap w !! obj = None →
  ∃ why, PrintObj ch obj w = (Panics why, w).
Proof.
  intros Hout Hnil. unfold PrintObj. rewrite Hout. cbn [negb].
  eexists. apply bind_panics. unfold GroupVersionKindOf.
  apply bind_panics. unfold deref. by rewrite Hnil.
Qed.

(** C4, as amended. [PrintObj] returns with every object of the heap, and
    so the identity of the one it was given, as it was before the call.
    When the version and the kind are set there is no registry lookup, and
    the only write of the identity is the final one, of the identity the
    object already has. Whenever the identity is written at all, the last
    write before [PrintObj] returns is of the original identity. *)
Theorem PrintObj_preserves_identity (ch : CommandHelper) (obj : loc)
    (w : World) (o : Object) :
  heap w !! obj = Some o →
  ∃ err w' evs,
    PrintObj ch obj w = (Returns err, w') ∧
    heap w' = heap w ∧
    objectKind <$> heap w' !! obj = Some (objectKind o) ∧
    trace w' = trace w ++ evs ∧
    (Version (objectKind o) ≠ "" → Kind (objectKind o) ≠ "" →
       evs = if output ch
             then [EvSetGroupVersionKind obj (objectKind o)] else []) ∧
    (∀ g, EvSetGroupVersionKind obj g ∈ evs →
       last evs = Some (EvSetGroupVersionKind obj (objectKind o))).
Proof.
  intros Ho. destruct (output ch) eqn:Hout.
  - rewrite (PrintObj_run _ _ _ _ Hout Ho). cbn zeta.
    destruct ((Version (objectKind o) =? "")%string ||
              (Kind (objectKind o) =? "")%string) eqn:Hempty.
    + apply empty_or_iff in Hempty.
      destruct (typeToGVK ch !! typeOf o) as [nGVK|].
      * eexists _, _, _. split; [reflexivity|]. cbn.
        rewrite Ho. repeat split; tauto.
      * eexists _, _, _. split; [reflexivity|]. cbn.
        rewrite Ho. repeat split; try tauto.
        intros g Hg. apply list_elem_of_singleton in Hg. discriminate Hg.
    + eexists _, _, _. split; [reflexivity|]. cbn.
      rewrite Ho. repeat split; done.
  - rewrite (PrintObj_no_output _ _ _ Hout).
    exists None, w, []. rewrite Ho, app_nil_r. repeat split; try done.
    intros g Hg. by apply elem_of_nil in Hg.
Qed.

(** C5. In output mode, for an object with empty identity whose type has
    no entry in the registry, [PrintObj] returns the error made from
    ["failed to output. unknown type %q"], calls no writer, and leaves
    the object, and the whole heap, unchanged. *)
Theorem PrintObj_unknown_type (ch : CommandHelper) (obj : loc) (w : World)
    (o : Object) :
  output ch = true →
  heap w !! obj = Some o →
  objectKind o = mkGVK "" "" "" →
  typeToGVK ch !! typeOf o = None →
  ∃ w',
    PrintObj ch obj w =
      (Returns (Some (Errorf "failed to output. unknown type %q"
                             [ArgType (typeOf o)])), w') ∧
    streams w' = streams w ∧
    heap w' = heap w ∧
    heap w' !! obj = Some o.
Proof.
  intros Hout Ho Hid Hreg.
  rewrite (PrintObj_run _ _ _ _ Hout Ho). cbn zeta.
  rewrite Hid, Hreg. cbn. eauto.
Qed.

(** C9, as amended. In output mode [PrintObj] looks the type up in the
    registry exactly when the version or the kind of the object is empty.
    An object whose version and kind are set, whatever its group, is
    printed as it is: the result and the streams are those of printing the
    unchanged object, and no identity other than its own is written. *)
Theorem PrintObj_lookup_condition (ch : CommandHelper) (obj : loc)
    (w : World) (o : Object) :
  output ch = true →
  heap w !! obj = Some o →
  ∃ err w' evs,
    PrintObj ch obj w = (Returns err, w') ∧
    trace w' = trace w ++ evs ∧
    ((∃ t, EvLookup t ∈ evs) ↔
       Version (objectKind o) = "" ∨ Kind (objectKind o) = "") ∧
    (Version (objectKind o) ≠ "" → Kind (objectKind o) ≠ "" →
       (err, streams w')
         = printed (objPrinter ch) o (outWriter ch) (streams w) ∧
       heap w' = heap w ∧
       ∀ g, EvSetGroupVersionKind obj g ∈ evs → g = objectKind o).
Proof.
  intros Hout Ho. rewrite (PrintObj_run _ _ _ _ Hout Ho). cbn zeta.
  destruct ((Version (objectKind o) =? "")%string ||
            (Kind (objectKind o) =? "")%string) eqn:Hempty.
  - apply empty_or_iff in Hempty.
    destruct (typeToGVK ch !! typeOf o) as [nGVK|];
      (eexists _, _, _; split; [reflexivity|]; cbn;
       split; [done|]; split; [|tauto]; split; [done|]);
      intros _; eexists; apply list_elem_of_here.
  - eexists _, _, _. split; [reflexivity|]. cbn.
    assert (Hne : ¬ (Version (objectKind o) = "" ∨ Kind (objectKind o) = "")).
    { rewrite <- empty_or_iff, Hempty. discriminate. }
    split; [done|]. split; [split; [|done]|intros _ _; split; [|split; [done|]]].
    + intros [t Ht]. apply list_elem_of_singleton in Ht. discriminate Ht.
    + by destruct (printed _ _ _ _).
    + intros g Hg. apply list_elem_of_singleton in Hg. by injection Hg.
Qed.

Lemma getBoolFlag_unset cmd name :
  unset cmd name → getBoolFlag name cmd = (false, None).
Proof.
  unfold getBoolFlag, pflag.Changed, pflag.Lookup.
  intros [E|(flag & E & Hc)]; rewrite E; [done|]. by rewrite Hc.
Qed.

Lemma getStringFlag_unset cmd name :
  unset cmd name → getStringFlag name cmd = ("", None).
Proof.
  unfold getStringFlag, pflag.Changed, pflag.Lookup.
  intros [E|(flag & E & Hc)]; rewrite E; [done|]. by rewrite Hc.
Qed.

(** C8. A flag that is not defined on the command, or is defined but was
    not set by the user, resolves to the zero value of its type and to no
    error, whatever its name; when [dry-run], [output] and [wait] are such
    flags, the construction of the helper succeeds with the three modes
    off. *)
Theorem flags_resolve_permissively `{ApiNames} `{Printers} (cmd : Command) :
  (∀ name, unset cmd name →
     getBoolFlag name cmd = (false, None) ∧
     getStringFlag name cmd = ("", None)) ∧
  (unset cmd "dry-run" → unset cmd "output" → unset cmd "wait" →
     ∃ ch, NewCommandHelper cmd = (Some ch, None) ∧
           dryRun ch = false ∧ output ch = false ∧ wait ch = false).
Proof.
  split.
  - intros name Hu. by rewrite getBoolFlag_unset, getStringFlag_unset.
  - intros Hd Ho Hw. unfold NewCommandHelper.
    rewrite (getBoolFlag_unset _ _ Hd), (getStringFlag_unset _ _ Ho),
      (getBoolFlag_unset _ _ Hw).
    cbn. eauto.
Qed.

End helper_properties.

(** * Properties of the patch command *)

Section patch_properties.
Import io cobra v1alpha1 clusterbuilder.
Context `{Fmt} `{Decls} `{!Collaborators}.

Lemma cb_deref_run obj w o :
  heap w !! obj = Some o → deref obj w = (Returns o, w).
Proof. intros Ho. unfold deref. by rewrite Ho. Qed.

Lemma fresh_unused (w : World) : heap w !! fresh (dom (heap w)) = None.
Proof. apply not_elem_of_dom, is_fresh. Qed.

Lemma cb_update_run obj f w o :
  heap w !! obj = Some o →
  update obj f w =
  (Returns tt, mkWorld (<[obj := f o]> (heap w)) (streams w) (server w)
                       (outage w) (requests w)).
Proof.
  intros Ho. unfold update.
  by rewrite (bind_run _ _ _ _ _ (cb_deref_run _ _ _ Ho)).
Qed.

Lemma DeepCopy_run obj w o :
  heap w !! obj = Some o →
  DeepCopy obj w =
  (Returns (fresh (dom (heap w))),
   mkWorld (<[fresh (dom (heap w)) := o]> (heap w)) (streams w) (server w)
           (outage w) (requests w)).
Proof.
  intros Ho. unfold DeepCopy.
  by rewrite (bind_run _ _ _ _ _ (cb_deref_run _ _ _ Ho)).
Qed.

(** One run of [patched]: a new object is allocated and given the desired
    value; nothing else changes. *)
Lemma patched_run ccb stack store order w o :
  heap w !! ccb = Some o →
  let entries :=
    if (order =? "")%string then None
    else match ReadOrder order with
         | (_, Some _) => None
         | (orderEntries, None) => Some orderEntries
         end in
  let err := if (order =? "")%string then None else (ReadOrder order).2 in
  patched ccb stack store order w =
  (Returns (fresh (dom (heap w)), err),
   mkWorld (<[fresh (dom (heap w)) := desired o stack store entries]> (heap w))
           (streams w) (server w) (outage w) (requests w)).
Proof.
  intros Ho. cbn zeta. unfold patched, desired.
  rewrite (bind_run _ _ _ _ _ (DeepCopy_run _ _ _ Ho)).
  set (l := fresh (dom (heap w))).
  set (step1 := if (stack =? "")%string then o else setStackName stack o).
  erewrite bind_run with
    (s' := mkWorld (<[l := step1]> (heap w)) (streams w) (server w)
                   (outage w) (requests w)) (a := tt); cycle 1.
  { subst step1. destruct (stack =? "")%string; cbn [negb]; [done|].
    erewrite cb_update_run by apply lookup_insert_eq. cbn.
    by rewrite insert_insert_eq. }
  set (step2 := if (store =? "")%string then step1 else setStoreName store step1).
  erewrite bind_run with
    (s' := mkWorld (<[l := step2]> (heap w)) (streams w) (server w)
                   (outage w) (requests w)) (a := tt); cycle 1.
  { subst step2. destruct (store =? "")%string; cbn [negb]; [done|].
    erewrite cb_update_run by apply lookup_insert_eq. cbn.
    by rewrite insert_insert_eq. }
  destruct (order =? "")%string; cbn [negb]; [done|].
  destruct (ReadOrder order) as [orderEntries [e|]]; [done|].
  erewrite bind_run by (apply cb_update_run; apply lookup_insert_eq).
  cbn. by rewrite insert_insert_eq.
Qed.

(** C6. The desired object is a new object: the observed one, every
    other object, the streams and the server are as they were. It agrees
    with the observed object on the metadata, the status, the service
    account, the tag and every field of the stack and store references but
    [Name]; the stack, the store and the order are the observed ones
    whenever the corresponding flag is empty, and a stack or store flag
    that is not empty becomes the name of the reference. *)
Theorem patched_frame (ccb : loc) (stack store order : string) (w : World)
    (o : ClusterBuilder) :
  heap w !! ccb = Some o →
  ∃ patchedCcb err d w',
    patched ccb stack store order w = (Returns (patchedCcb, err), w') ∧
    heap w !! patchedCcb = None ∧
    heap w' = <[patchedCcb := d]> (heap w) ∧
    heap w' !! ccb = Some o ∧
    streams w' = streams w ∧ server w' = server w ∧
    requests w' = requests w ∧
    typeMeta d = typeMeta o ∧ objectMeta d = objectMeta o ∧
    Status d = Status o ∧
    ServiceAccountRef (Spec d) = ServiceAccountRef (Spec o) ∧
    Tag (builderSpec (Spec d)) = Tag (builderSpec (Spec o)) ∧
    sameButName (Stack (builderSpec (Spec d))) (Stack (builderSpec (Spec o))) ∧
    sameButName (Store (builderSpec (Spec d))) (Store (builderSpec (Spec o))) ∧
    (stack = "" →
       Stack (builderSpec (Spec d)) = Stack (builderSpec (Spec o))) ∧
    (store = "" →
       Store (builderSpec (Spec d)) = Store (builderSpec (Spec o))) ∧
    (order = "" →
       Order (builderSpec (Spec d)) = Order (builderSpec (Spec o))) ∧
    (stack ≠ "" → corev1.Name (Stack (builderSpec (Spec d))) = stack) ∧
    (store ≠ "" → corev1.Name (Store (builderSpec (Spec d))) = store).
Proof.
  intros Ho. rewrite (patched_run _ _ _ _ _ _ Ho). cbn zeta.
  eexists _, _, _, _. split; [reflexivity|]. cbn.
  split; [apply fresh_unused|]. split; [done|].
  split.
  { rewrite lookup_insert_ne; [done|].
    intros E. pose proof (fresh_unused w) as Hf. rewrite E in Hf. congruence. }
  do 3 (split; [done|]).
  unfold desired, sameButName.
  destruct (String.eqb_spec stack "") as [Es|Es],
    (String.eqb_spec store "") as [Et|Et],
    (String.eqb_spec order "") as [Eo|Eo];
    try destruct (ReadOrder order) as [orderEntries [e|]]; cbn;
    repeat (split; [done|]); done.
Qed.

(** C10. With the three flags empty the desired object is a new object
    with the value of the observed one: no field is cleared. *)
Theorem patched_empty_flags (ccb : loc) (stack store order : string)
    (w : World) (o : ClusterBuilder) :
  stack = "" → store = "" → order = "" →
  heap w !! ccb = Some o →
  ∃ patchedCcb w',
    patched ccb stack store order w = (Returns (patchedCcb, None), w') ∧
    patchedCcb ≠ ccb ∧
    heap w' !! patchedCcb = Some o ∧
    heap w' !! ccb = Some o.
Proof.
  intros -> -> -> Ho. rewrite (patched_run _ _ _ _ _ _ Ho). cbn.
  assert (Hne : fresh (dom (heap w)) ≠ ccb).
  { intros E. pose proof (fresh_unused w) as Hf. rewrite E in Hf. congruence. }
  eexists _, _. split; [reflexivity|]. cbn. split; [done|].
  split; [apply lookup_insert_eq|]. by rewrite lookup_insert_ne.
Qed.

Lemma Get_run cs name w o :
  outage w = None →
  server w !! name = Some o →
  Get cs name w =
  (Returns (Some (fresh (dom (heap w))), None),
   mkWorld (<[fresh (dom (heap w)) := o]> (heap w)) (streams w) (server w)
           (outage w) (requests w ++ [ReqGet name])).
Proof.
  intros Hup Ho. unfold Get, request, modify, get, alloc, mbind, Go_bind.
  cbn. by rewrite Hup, Ho.
Qed.

Lemma cb_Write_run wr p w :
  Write wr p w =
  (Returns (io.Write wr p (streams w)).1,
   mkWorld (heap w) (io.Write wr p (streams w)).2 (server w) (outage w)
           (requests w)).
Proof. unfold Write. by destruct (io.Write _ _ _). Qed.

(** C2, as amended. When the object is fetched, the order (if any) is read
    and the patch computed between the observed object and the desired one
    is empty, [RunE] makes one write, of the line ["nothing to patch"], to
    the output of the command, makes no [Patch] request, and returns what
    the write returned: no error when the write succeeds. *)
Theorem RunE_nothing_to_patch (provider : ClientSetProvider)
    (stack store order : string) (cmd : Command) (name : string)
    (rest : list string) (w : World) (cs : ClientSet) (o : ClusterBuilder)
    (patch : string) :
  GetClientSet provider "" = (Some cs, None) →
  outage w = None →
  server w !! name = Some o →
  (order = "" ∨ (ReadOrder order).2 = None) →
  CreatePatch o (desired o stack store (orderRead order)) = (patch, None) →
  String.length patch = 0 →
  ∃ err w',
    RunE provider stack store order cmd (name :: rest) w = (Returns err, w') ∧
    requests w' = requests w ++ [ReqGet name] ∧
    server w' = server w ∧
    calls (streams w')
      = calls (streams w) ++ [(OutOrStdout cmd, "nothing to patch" +:+ newline)] ∧
    err = (io.Write (OutOrStdout cmd) ("nothing to patch" +:+ newline)
                    (streams w)).1.2 ∧
    (match OutOrStdout cmd with
     | Stream h => failing (streams w) !! h = None
     | Discard => True
     end → err = None).
Proof.
  intros Hcs Hup Ho Hord Hpatch Hlen. unfold RunE. rewrite Hcs.
  rewrite (bind_run _ _ _ _ _ (Get_run cs _ _ _ Hup Ho)). cbn beta iota.
  set (ccb := fresh (dom (heap w))).
  set (w1 := mkWorld _ _ _ _ _).
  assert (Hccb : heap w1 !! ccb = Some o) by apply lookup_insert_eq.
  rewrite (bind_run _ _ _ _ _ (patched_run _ stack store order _ _ Hccb)).
  cbn beta iota zeta.
  assert (Herr : (if (order =? "")%string then None else (ReadOrder order).2)
                 = None).
  { destruct Hord as [->|E]; [done|]. by destruct (order =? "")%string. }
  rewrite Herr.
  assert (Hent : (if (order =? "")%string then None
                  else match ReadOrder order with
                       | (_, Some _) => None
                       | (orderEntries, None) => Some orderEntries
                       end) = orderRead order).
  { unfold orderRead. destruct (order =? "")%string eqn:Eo; [done|].
    destruct Hord as [->|E]; [done|].
    destruct (ReadOrder order) as [entries [e|]]; [done|done]. }
  rewrite Hent.
  set (l := fresh (dom (heap w1))).
  set (w2 := mkWorld _ _ _ _ _).
  assert (Hne : l ≠ ccb).
  { intros E. pose proof (fresh_unused w1) as Hf. fold l in Hf.
    rewrite E in Hf. congruence. }
  assert (Hccb2 : heap w2 !! ccb = Some o).
  { subst w2. cbn. by rewrite lookup_insert_ne. }
  assert (Hl : heap w2 !! l = Some (desired o stack store (orderRead order))).
  { subst w2. cbn. apply lookup_insert_eq. }
  rewrite (bind_run _ _ _ _ _ (cb_deref_run _ _ _ Hccb2)).
  rewrite (bind_run _ _ _ _ _ (cb_deref_run _ _ _ Hl)).
  rewrite Hpatch, Hlen. cbn [Nat.eqb].
  unfold Fprintln.
  erewrite bind_run by apply cb_Write_run.
  destruct (io.Write (OutOrStdout cmd) _ (streams w2)) as [[n err] s] eqn:Ew.
  cbn -[String.append].
  eexists _, _. split; [reflexivity|]. cbn -[String.append].
  subst w2 w1. cbn -[String.append] in Ew.
  split; [done|]. split; [done|].
  pose proof (Write_calls (OutOrStdout cmd) ("nothing to patch" +:+ newline)
                (streams w)) as Hcalls.
  rewrite Ew in *. cbn -[String.append] in *.
  split; [done|]. split; [done|].
  unfold io.Write in Ew. destruct (OutOrStdout cmd) as [h|].
  - intros Hok. rewrite Hok in Ew. congruence.
  - intros _. congruence.
Qed.

End patch_properties.

(** * The properties on the sample inputs *)

Section helper_examples.
Import io schema cobra commands sample.
#[local] Existing Instance plainSprintf.
#[local] Existing Instance apiNames.
#[local] Existing Instance printers.

Lemma output_mode_routing_witness :
  output outputHelper = true ∧ output narrativeHelper = false ∧
  OutOrErrWriter outputHelper = stderr ∧
  OutOrDiscardWriter outputHelper = Discard ∧
  OutOrErrWriter narrativeHelper = stdout ∧
  OutOrDiscardWriter narrativeHelper = stdout.
Proof.
  split; [reflexivity|]. split; [reflexivity|].
  destruct (output_mode_routing outputHelper) as (Hon & _).
  destruct (output_mode_routing narrativeHelper) as (_ & Hoff & _).
  destruct (Hon eq_refl) as [E1 E2]. destruct (Hoff eq_refl) as [E3 E4].
  repeat split; assumption.
Defined.

Lemma PrintObj_preserves_identity_witness :
  heap world !! 0 = Some image ∧
  ∃ err w', PrintObj outputHelper 0 world = (Returns err, w') ∧
            heap w' = heap world.
Proof.
  split; [reflexivity|].
  destruct (PrintObj_preserves_identity outputHelper 0 world image eq_refl)
    as (err & w' & evs & E & Hheap & _).
  exists err, w'. split; assumption.
Defined.

(** C4, as first stated, fails: the identity of [image] is set in full, and
    [PrintObj] writes it. *)
Lemma PrintObj_writes_set_identity :
  heap world !! 0 = Some image ∧
  Group (objectKind image) ≠ "" ∧ Version (objectKind image) ≠ "" ∧
  Kind (objectKind image) ≠ "" ∧
  ¬ (∀ g, EvSetGroupVersionKind 0 g ∉ trace (PrintObj outputHelper 0 world).2).
Proof.
  split; [reflexivity|]. do 3 (split; [discriminate|]).
  intros Hnever. apply (Hnever (objectKind image)).
  assert (E : trace (PrintObj outputHelper 0 world).2
              = [EvSetGroupVersionKind 0 (objectKind image)])
    by (vm_compute; reflexivity).
  rewrite E. apply list_elem_of_here.
Qed.

Lemma PrintObj_unknown_type_witness :
  output outputHelper = true ∧ heap world !! 1 = Some bare ∧
  objectKind bare = mkGVK "" "" "" ∧
  typeToGVK outputHelper !! typeOf bare = None ∧
  ∃ w', PrintObj outputHelper 1 world =
          (Returns (Some (Errorf "failed to output. unknown type %q"
                                 [ArgType (typeOf bare)])), w') ∧
        streams w' = streams world.
Proof.
  do 4 (split; [reflexivity|]).
  destruct (PrintObj_unknown_type outputHelper 1 world bare
              eq_refl eq_refl eq_refl eq_refl) as (w' & E & Hs & _).
  exists w'. split; assumption.
Defined.

Lemma PrintObj_lookup_condition_witness :
  output outputHelper = true ∧ heap world !! 0 = Some image ∧
  ∃ err w', PrintObj outputHelper 0 world = (Returns err, w').
Proof.
  do 2 (split; [reflexivity|]).
  destruct (PrintObj_lookup_condition outputHelper 0 world image
              eq_refl eq_refl) as (err & w' & evs & E & _).
  exists err, w'. exact E.
Defined.

(** C9, as first stated, fails: out of output mode the version of [bare]
    is empty and [PrintObj] looks nothing up. *)
Lemma PrintObj_no_lookup_without_output :
  output narrativeHelper = false ∧
  heap world !! 1 = Some bare ∧
  Version (objectKind bare) = "" ∧
  ¬ (∃ t, EvLookup t ∈ trace (PrintObj narrativeHelper 1 world).2).
Proof.
  do 3 (split; [reflexivity|]).
  intros [t Ht].
  assert (E : trace (PrintObj narrativeHelper 1 world).2 = [])
    by (vm_compute; reflexivity).
  rewrite E in Ht. by apply elem_of_nil in Ht.
Qed.

Lemma flags_resolve_permissively_witness :
  unset command "dry-run" ∧ unset command "output" ∧ unset command "wait" ∧
  getBoolFlag "dry-run" command = (false, None) ∧
  getStringFlag "output" command = ("", None) ∧
  ∃ ch, NewCommandHelper command = (Some ch, None) ∧ ShouldWait ch = false.
Proof.
  assert (Hu : ∀ name, unset command name) by (intros name; left; reflexivity).
  do 3 (split; [apply Hu|]).
  destruct (flags_resolve_permissively command) as [Hflag Hnew].
  split; [apply (Hflag "dry-run"), Hu|].
  split; [apply (Hflag "output"), Hu|].
  destruct (Hnew (Hu _) (Hu _) (Hu _)) as (ch & E & Hd & Ho & Hw).
  exists ch. split; [exact E|]. unfold ShouldWait. by rewrite Hw.
Defined.

End helper_examples.

Section patch_examples.
Import io cobra v1alpha1 clusterbuilder samplePatch.
#[local] Existing Instance sample.plainSprintf.
#[local] Existing Instance decls.
#[local] Existing Instance collaborators.

Lemma patched_frame_witness :
  heap fetched !! 0 = Some builder ∧
  ∃ patchedCcb err w',
    patched 0 "tiny" "" "" fetched = (Returns (patchedCcb, err), w') ∧
    heap w' !! 0 = Some builder.
Proof.
  split; [reflexivity|].
  destruct (patched_frame 0 "tiny" "" "" fetched builder eq_refl)
    as (l & err & d & w' & E & _ & _ & Hobs & _).
  exists l, err, w'. split; assumption.
Defined.

Lemma patched_empty_flags_witness :
  heap fetched !! 0 = Some builder ∧
  ∃ patchedCcb w',
    patched 0 "" "" "" fetched = (Returns (patchedCcb, None), w') ∧
    heap w' !! patchedCcb = Some builder.
Proof.
  split; [reflexivity|].
  destruct (patched_empty_flags 0 "" "" "" fetched builder
              eq_refl eq_refl eq_refl eq_refl)
    as (l & w' & E & _ & Hcopy & _).
  exists l, w'. split; assumption.
Defined.

Lemma RunE_nothing_to_patch_witness :
  GetClientSet provider "" = (Some (mkClientSet "default"), None) ∧
  outage world = None ∧
  server world !! "my-builder" = Some builder ∧
  CreatePatch builder (desired builder "" "" (orderRead "")) = ("", None) ∧
  ∃ w', RunE provider "" "" "" command ["my-builder"] world
        = (Returns None, w').
Proof.
  assert (Hpatch : CreatePatch builder (desired builder "" "" (orderRead ""))
                   = ("", None)) by reflexivity.
  do 3 (split; [reflexivity|]). split; [exact Hpatch|].
  destruct (RunE_nothing_to_patch provider "" "" "" command "my-builder" []
              world (mkClientSet "default") builder ""
              eq_refl eq_refl eq_refl (or_introl eq_refl) Hpatch eq_refl)
    as (err & w' & E & _ & _ & _ & _ & Hok).
  exists w'. rewrite E. f_equal. f_equal. apply Hok. reflexivity.
Defined.

(** C2, as first stated, fails: the patch is empty and the output of the
    command is closed, and [RunE] returns the error of the write. *)
Lemma RunE_nothing_to_patch_write_error :
  CreatePatch builder (desired builder "" "" (orderRead "")) = ("", None) ∧
  (RunE provider "" "" "" command ["my-builder"] closedOutput).1
    = Returns (Some "write /dev/stdout: broken pipe") ∧
  (RunE provider "" "" "" command ["my-builder"] closedOutput).1
    ≠ Returns None.
Proof.
  split; [reflexivity|].
  assert (E : (RunE provider "" "" "" command ["my-builder"] closedOutput).1
              = Returns (Some "write /dev/stdout: broken pipe"))
    by (vm_compute; reflexivity).
  split; [exact E|]. rewrite E. discriminate.
Qed.

End patch_examples.

(** * Further properties of the command helper *)

Section helper_more.
Import io schema cobra commands.
Context `{Fmt}.

Lemma PrintObj_returns ch obj w o :
  heap w !! obj = Some o →
  ∃ err w', PrintObj ch obj w = (Returns err, w') ∧ heap w' = heap w.
Proof.
  intros Ho. destruct (output ch) eqn:Hout.
  - rewrite (PrintObj_run _ _ _ _ Hout Ho). cbn zeta.
    destruct (_ || _); [destruct (typeToGVK ch !! typeOf o)|]; eauto.
  - rewrite (PrintObj_no_output _ _ _ Hout). eauto.
Qed.

(** [PrintObjs] on a list in two parts prints the first part and, when that
    gave no error, goes on with the second part from the world the first
    left; an error or a panic in the first part is the result, and nothing
    of the second part is printed. *)
Theorem PrintObjs_app (ch : CommandHelper) (objs1 objs2 : list loc)
    (w : World) :
  PrintObjs ch (objs1 ++ objs2) w =
  match PrintObjs ch objs1 w with
  | (Returns None, w1) => PrintObjs ch objs2 w1
  | stopped => stopped
  end.
Proof.
  revert w. induction objs1 as [|obj rest IH]; intros w; [done|].
  cbn [app PrintObjs]. unfold mbind, Go_bind.
  destruct (PrintObj ch obj w) as [[[e|]|why] w1]; [done| |done].
  apply IH.
Qed.

(** Out of output mode [PrintObjs] does nothing, whatever the list. *)
Theorem PrintObjs_no_output (ch : CommandHelper) (objs : list loc)
    (w : World) :
  output ch = false → PrintObjs ch objs w = (Returns None, w).
Proof.
  intros Hout. induction objs as [|obj rest IH]; [done|].
  cbn [PrintObjs]. by rewrite (bind_run _ _ _ _ _ (PrintObj_no_output _ _ _ Hout)).
Qed.

(** When every pointer of the list is to an object, [PrintObjs] returns,
    and every object of the heap is as it was before. *)
Theorem PrintObjs_heap (ch : CommandHelper) (objs : list loc) (w : World) :
  (∀ obj, obj ∈ objs → is_Some (heap w !! obj)) →
  ∃ err w', PrintObjs ch objs w = (Returns err, w') ∧ heap w' = heap w.
Proof.
  revert w. induction objs as [|obj rest IH]; intros w Hall; [by eexists _, _|].
  destruct (Hall obj (list_elem_of_here _ _)) as [o Ho].
  destruct (PrintObj_returns ch obj w o Ho) as (err & w1 & E & Hheap).
  cbn [PrintObjs]. rewrite (bind_run _ _ _ _ _ E).
  destruct err as [e|]; [by eexists _, _|].
  destruct (IH w1) as (err' & w' & E' & Hheap').
  { intros obj' Hin. rewrite Hheap. by apply Hall, list_elem_of_further. }
  exists err', w'. split; [done|]. by rewrite Hheap', Hheap.
Qed.

(** [Printlnf] makes one write, of the format with a newline appended,
    formatted, to the writer of status text, and the result is the error of
    the write; a helper that differs in [dryRun] only does the same. *)
Theorem Printlnf_run (ch : CommandHelper) (format : string) (args : list Arg)
    (w : World) :
  let wrote := io.Write (OutOrErrWriter ch) (Sprintf (format +:+ newline) args)
                        (streams w) in
  Printlnf ch format args w
  = (Returns wrote.1.2, mkWorld (heap w) wrote.2 (trace w)) ∧
  calls wrote.2
  = calls (streams w)
    ++ [(OutOrErrWriter ch, Sprintf (format +:+ newline) args)] ∧
  ∀ d, Printlnf (mkHelper d (output ch) (wait ch) (outWriter ch) (errWriter ch)
                          (objPrinter ch) (strBuilder ch) (typeToGVK ch))
                format args w
       = Printlnf ch format args w.
Proof.
  cbn zeta. split; [|split; [apply Write_calls|done]].
  unfold Printlnf, Fprintf, Write, mbind, Go_bind.
  by destruct (io.Write _ _ _) as [[n e] s].
Qed.

(** In output mode [PrintResult] succeeds and no stream receives anything,
    also when the output of the command fails. *)
Theorem PrintResult_silent (ch : CommandHelper) (format : string)
    (args : list Arg) (w : World) :
  output ch = true →
  ∃ w', PrintResult ch format args w = (Returns None, w') ∧
        content (streams w') = content (streams w) ∧
        failing (streams w') = failing (streams w) ∧
        heap w' = heap w ∧ trace w' = trace w.
Proof.
  intros Hout. unfold PrintResult, OutOrDiscardWriter. rewrite Hout.
  rewrite printDryRun_run. by eexists.
Qed.

(** [PrintStatus] on a stream that accepts writes appends the line to what
    the stream received and leaves the other streams alone; on a stream
    that fails it returns the error of the stream and no stream receives
    anything. *)
Theorem PrintStatus_delivers (ch : CommandHelper) (format : string)
    (args : list Arg) (w : World) (h : handle) :
  OutOrErrWriter ch = Stream h →
  ∃ w',
    PrintStatus ch format args w = (Returns (failing (streams w) !! h), w') ∧
    match failing (streams w) !! h with
    | None =>
        received (streams w') h
        = received (streams w) h +:+ dryRunLine ch format args ∧
        ∀ h', h' ≠ h → received (streams w') h' = received (streams w) h'
    | Some _ => content (streams w') = content (streams w)
    end.
Proof.
  intros Hwr. unfold PrintStatus. rewrite printDryRun_run, Hwr.
  unfold io.Write. destruct (failing (streams w) !! h) as [e|] eqn:Hf;
    cbn; eexists; (split; [reflexivity|]); cbn; [done|].
  unfold received at 1 3. cbn. rewrite lookup_insert_eq. split; [done|].
  intros h' Hne. unfold received. cbn. by rewrite lookup_insert_ne.
Qed.

(** In output mode the printer is given the object as [presented]: the
    result of [PrintObj] and the streams are those of printing that object,
    and the object on the heap keeps its own identity. *)
Theorem PrintObj_prints_presented (ch : CommandHelper) (obj : loc)
    (w : World) (o o' : Object) :
  output ch = true →
  heap w !! obj = Some o →
  presented ch o = Some o' →
  ∃ w',
    PrintObj ch obj w
    = (Returns (printed (objPrinter ch) o' (outWriter ch) (streams w)).1, w') ∧
    streams w' = (printed (objPrinter ch) o' (outWriter ch) (streams w)).2 ∧
    heap w' = heap w.
Proof.
  intros Hout Ho Hp. rewrite (PrintObj_run _ _ _ _ Hout Ho). cbn zeta.
  unfold presented in Hp.
  destruct (_ || _).
  - destruct (typeToGVK ch !! typeOf o) as [nGVK|]; [|done].
    injection Hp as <-. by eexists.
  - injection Hp as <-. by eexists.
Qed.

(** An error of the serialization is the result of [PrintObj]; no writer
    is called and the object keeps its identity. *)
Theorem PrintObj_printer_error (ch : CommandHelper) (obj : loc) (w : World)
    (o o' : Object) (text : string) (e : error) :
  output ch = true →
  heap w !! obj = Some o →
  presented ch o = Some o' →
  serialize (objPrinter ch) o' = (text, Some e) →
  ∃ w', PrintObj ch obj w = (Returns (Some e), w') ∧
        streams w' = streams w ∧ heap w' = heap w.
Proof.
  intros Hout Ho Hp Hser. rewrite (PrintObj_run _ _ _ _ Hout Ho). cbn zeta.
  unfold presented in Hp.
  destruct (_ || _).
  - destruct (typeToGVK ch !! typeOf o) as [nGVK|]; [|done].
    injection Hp as <-. unfold printed. rewrite Hser. by eexists.
  - injection Hp as <-. unfold printed. rewrite Hser. by eexists.
Qed.

(** A flag the user set resolves to what [GetBool] or [GetString] gives
    for it: a string flag to its value, a bool flag to the boolean its value
    spells. *)
Theorem flags_resolve_set (cmd : Command) (name : string) (flag : pflag.Flag) :
  Flags cmd !! name = Some flag →
  pflag.flagChanged flag = true →
  (pflag.ValueType flag = "string" →
     getStringFlag name cmd = (pflag.Value flag, None)) ∧
  (pflag.ValueType flag = "bool" →
     (pflag.Value flag ∈ ["1"; "t"; "T"; "true"; "TRUE"; "True"] →
        getBoolFlag name cmd = (true, None)) ∧
     (pflag.Value flag ∈ ["0"; "f"; "F"; "false"; "FALSE"; "False"] →
        getBoolFlag name cmd = (false, None))).
Proof.
  intros Hflag Hch.
  unfold getStringFlag, getBoolFlag, pflag.Changed, pflag.Lookup,
    pflag.GetString, pflag.GetBool, pflag.getFlagType, pflag.Lookup.
  rewrite Hflag, Hch. cbn [negb]. split; intros ->; [done|].
  cbn. unfold strconv.ParseBool.
  split; intros Hv;
    repeat (apply elem_of_cons in Hv as [Hv|Hv]; [by rewrite Hv|]);
    by apply elem_of_nil in Hv.
Qed.

(** A flag the user set whose value is of another type than the one asked
    for resolves to the zero value and an error. *)
Theorem flags_resolve_type_mismatch (cmd : Command) (name : string)
    (flag : pflag.Flag) :
  Flags cmd !! name = Some flag →
  pflag.flagChanged flag = true →
  (pflag.ValueType flag ≠ "bool" → ∃ e, getBoolFlag name cmd = (false, Some e)) ∧
  (pflag.ValueType flag ≠ "string" →
     ∃ e, getStringFlag name cmd = ("", Some e)).
Proof.
  intros Hflag Hch.
  unfold getStringFlag, getBoolFlag, pflag.Changed, pflag.Lookup,
    pflag.GetString, pflag.GetBool, pflag.getFlagType, pflag.Lookup.
  rewrite Hflag, Hch. cbn [negb].
  split; intros Hne%String.eqb_neq; rewrite Hne; cbn; eauto.
Qed.

Context `{ApiNames} `{Printers}.

(** The four places where the construction of the helper can stop. *)
Lemma NewCommandHelper_cases (cmd : Command) :
  NewCommandHelper cmd =
  match (getBoolFlag "dry-run" cmd).2, (getStringFlag "output" cmd).2,
        (getBoolFlag "wait" cmd).2 with
  | Some e, _, _ => (None, Some e)
  | None, Some e, _ => (None, Some e)
  | None, None, Some e => (None, Some e)
  | None, None, None =>
      let output := (getStringFlag "output" cmd).1 in
      if (0 <? String.length output)%nat then
        match NewObjectPrinter output with
        | (_, Some e) => (None, Some e)
        | (p, None) =>
            (Some (mkHelper (getBoolFlag "dry-run" cmd).1 true
                            (getBoolFlag "wait" cmd).1
                            (OutOrStdout cmd) (ErrOrStderr cmd) p ""
                            getTypeToGVKLookup), None)
        end
      else
        (Some (mkHelper (getBoolFlag "dry-run" cmd).1 false
                        (getBoolFlag "wait" cmd).1
                        (OutOrStdout cmd) (ErrOrStderr cmd) zeroObjectPrinter ""
                        getTypeToGVKLookup), None)
  end.
Proof.
  unfold NewCommandHelper.
  destruct (getBoolFlag "dry-run" cmd) as [d [e|]]; [done|].
  destruct (getStringFlag "output" cmd) as [o [e|]]; [done|].
  destruct (getBoolFlag "wait" cmd) as [wt [e|]]; [done|].
  cbn [fst snd]. destruct (0 <? String.length o)%nat; [|done].
  by destruct (NewObjectPrinter o) as [p [e|]].
Qed.

Lemma length_pos_iff (s : string) : (0 <? String.length s)%nat = true ↔ s ≠ "".
Proof. destruct s; cbn; split; (done || by intros _). Qed.

(** [NewCommandHelper] gives either a helper and no error, or an error and
    no helper. *)
Theorem NewCommandHelper_helper_or_error (cmd : Command) :
  (∃ ch, NewCommandHelper cmd = (Some ch, None)) ∨
  (∃ e, NewCommandHelper cmd = (None, Some e)).
Proof.
  rewrite NewCommandHelper_cases.
  destruct (getBoolFlag "dry-run" cmd).2; [eauto|].
  destruct (getStringFlag "output" cmd).2; [eauto|].
  destruct (getBoolFlag "wait" cmd).2; [eauto|].
  cbn zeta. destruct (0 <? _)%nat; [|eauto].
  destruct (NewObjectPrinter _) as [p [e|]]; eauto.
Qed.

(** The helper [NewCommandHelper] gives has the modes the flags resolve
    to, output mode being on exactly when the output format is not empty,
    the writers of the command, the registry of [getTypeToGVKLookup], and,
    in output mode, the printer made for the output format. *)
Theorem NewCommandHelper_modes (cmd : Command) (ch : CommandHelper) :
  NewCommandHelper cmd = (Some ch, None) →
  dryRun ch = (getBoolFlag "dry-run" cmd).1 ∧
  wait ch = (getBoolFlag "wait" cmd).1 ∧
  (output ch = true ↔ (getStringFlag "output" cmd).1 ≠ "") ∧
  outWriter ch = OutOrStdout cmd ∧
  errWriter ch = ErrOrStderr cmd ∧
  typeToGVK ch = getTypeToGVKLookup ∧
  (output ch = true →
     NewObjectPrinter (getStringFlag "output" cmd).1 = (objPrinter ch, None)).
Proof.
  rewrite NewCommandHelper_cases.
  destruct (getBoolFlag "dry-run" cmd).2; [done|].
  destruct (getStringFlag "output" cmd).2; [done|].
  destruct (getBoolFlag "wait" cmd).2; [done|].
  cbn zeta. pose proof (length_pos_iff (getStringFlag "output" cmd).1) as Hlen.
  destruct (0 <? _)%nat.
  - destruct (NewObjectPrinter _) as [p [e|]] eqn:Hp; [done|].
    intros [= <-]. cbn. repeat split; try done. by apply Hlen.
  - intros [= <-]. cbn. repeat split; try done.
    intros Hne. by apply Hlen in Hne.
Qed.

(** [NewCommandHelper] fails exactly when the resolution of one of the
    three flags fails, or an output format was given and no printer can be
    made for it. *)
Theorem NewCommandHelper_error_iff (cmd : Command) :
  (∃ e, NewCommandHelper cmd = (None, Some e)) ↔
  (getBoolFlag "dry-run" cmd).2 ≠ None ∨
  (getStringFlag "output" cmd).2 ≠ None ∨
  (getBoolFlag "wait" cmd).2 ≠ None ∨
  ((getStringFlag "output" cmd).1 ≠ "" ∧
   (NewObjectPrinter (getStringFlag "output" cmd).1).2 ≠ None).
Proof.
  rewrite NewCommandHelper_cases.
  destruct (getBoolFlag "dry-run" cmd).2; [split; eauto|].
  destruct (getStringFlag "output" cmd).2; [split; eauto|].
  destruct (getBoolFlag "wait" cmd).2; [split; eauto|].
  cbn zeta. pose proof (length_pos_iff (getStringFlag "output" cmd).1) as Hlen.
  destruct (0 <? _)%nat.
  - destruct (NewObjectPrinter _) as [p [e|]]; cbn.
    + split; [intros _|eauto]. do 3 right. split; [by apply Hlen|done].
    + split; [by intros [e [=]]|]. intros [?|[?|[?|[_ ?]]]]; done.
  - split; [by intros [e [=]]|].
    intros [?|[?|[?|[Hne _]]]]; try done. by apply Hlen in Hne.
Qed.

(** Every identity of the registry is of the core group at version [v1] or
    of the build group at version [v1alpha1]: its version is never empty. *)
Theorem registry_versions (t : reflect_Type) (gvk : GroupVersionKind) :
  getTypeToGVKLookup !! t = Some gvk →
  (Group gvk = v1_GroupName ∧ Version gvk = "v1" ∨
   Group gvk = build_GroupName ∧ Version gvk = "v1alpha1") ∧
  Version gvk ≠ "".
Proof.
  intros Hin. unfold getTypeToGVKLookup in Hin.
  apply elem_of_list_to_map_2 in Hin.
  repeat (apply elem_of_cons in Hin as [[= -> ->]|Hin]; [cbn; auto|]).
  by apply elem_of_nil in Hin.
Qed.

(** The registry has an entry for exactly seven types. *)
Theorem registry_domain (t : reflect_Type) :
  is_Some (getTypeToGVKLookup !! t) ↔
  t ∈ ["*v1.Secret"; "*v1.ServiceAccount"; "*v1alpha1.Image";
       "*v1alpha1.Builder"; "*v1alpha1.ClusterStack";
       "*v1alpha1.ClusterStore"; "*v1alpha1.ClusterBuilder"].
Proof.
  rewrite <- elem_of_dom. unfold getTypeToGVKLookup.
  rewrite dom_list_to_map_L, elem_of_list_to_set. done.
Qed.

End helper_more.

(** * Further properties of the patch command *)

Section patch_more.
Import io cobra v1alpha1 clusterbuilder.
Context `{Fmt} `{Decls} `{!Collaborators}.

Lemma Patch_run cs name pt data w o :
  outage w = None →
  server w !! name = Some o →
  Patch cs name pt data w =
  match applyPatch pt data o with
  | (_, Some e) =>
      (Returns (None, Some e),
       mkWorld (heap w) (streams w) (server w) (outage w)
               (requests w ++ [ReqPatch name pt data]))
  | (o', None) =>
      (Returns (Some (fresh (dom (heap w))), None),
       mkWorld (<[fresh (dom (heap w)) := o']> (heap w)) (streams w)
               (<[name := o']> (server w)) (outage w)
               (requests w ++ [ReqPatch name pt data]))
  end.
Proof.
  intros Hup Ho. unfold Patch, request, modify, get, alloc, mbind, Go_bind.
  cbn. rewrite Hup, Ho. by destruct (applyPatch pt data o) as [o' [e|]].
Qed.

(** One run of [RunE] once the client set is there and the server has the
    object. *)
Lemma RunE_run provider stack store order cmd name rest w cs o :
  GetClientSet provider "" = (Some cs, None) →
  outage w = None →
  server w !! name = Some o →
  let ccb := fresh (dom (heap w)) in
  let d := desired o stack store (orderAssigned order) in
  let h2 := <[fresh (dom (<[ccb := o]> (heap w))) := d]>
              (<[ccb := o]> (heap w)) in
  let reqs := requests w ++ [ReqGet name] in
  RunE provider stack store order cmd (name :: rest) w =
  match orderError order with
  | Some e =>
      (Returns (Some e), mkWorld h2 (streams w) (server w) (outage w) reqs)
  | None =>
      match CreatePatch o d with
      | (_, Some e) =>
          (Returns (Some e), mkWorld h2 (streams w) (server w) (outage w) reqs)
      | (patch, None) =>
          if (String.length patch =? 0)%nat then
            let wrote := io.Write (OutOrStdout cmd)
                           ("nothing to patch" +:+ newline) (streams w) in
            (Returns wrote.1.2,
             mkWorld h2 wrote.2 (server w) (outage w) reqs)
          else
            let reqs' := reqs ++ [ReqPatch name MergePatchType patch] in
            match applyPatch MergePatchType patch o with
            | (_, Some e) =>
                (Returns (Some e),
                 mkWorld h2 (streams w) (server w) (outage w) reqs')
            | (o', None) =>
                let wrote :=
                  io.Write (OutOrStdout cmd)
                    (Sprintf (dquote +:+ "%s" +:+ dquote +:+ " patched"
                              +:+ newline)
                             [ArgString (ObjectMeta_Name (objectMeta o))])
                    (streams w) in
                (Returns wrote.1.2,
                 mkWorld (<[fresh (dom h2) := o']> h2) wrote.2
                         (<[name := o']> (server w)) (outage w) reqs')
            end
      end
  end.
Proof.
  intros Hcs Hup Ho. cbn zeta. unfold RunE. rewrite Hcs.
  rewrite (bind_run _ _ _ _ _ (Get_run cs _ _ _ Hup Ho)). cbn beta iota.
  set (ccb := fresh (dom (heap w))).
  set (w1 := mkWorld _ _ _ _ _).
  assert (Hccb : heap w1 !! ccb = Some o) by apply lookup_insert_eq.
  rewrite (bind_run _ _ _ _ _ (patched_run _ stack store order _ _ Hccb)).
  cbn beta iota zeta. fold (orderAssigned order). fold (orderError order).
  destruct (orderError order) as [e|]; [done|].
  set (l := fresh (dom (heap w1))).
  set (w2 := mkWorld _ _ _ _ _).
  assert (Hne : l ≠ ccb).
  { intros E. pose proof (fresh_unused w1) as Hf. fold l in Hf.
    rewrite E in Hf. congruence. }
  assert (Hccb2 : heap w2 !! ccb = Some o).
  { subst w2. cbn. by rewrite lookup_insert_ne. }
  assert (Hl : heap w2 !! l
               = Some (desired o stack store (orderAssigned order))).
  { subst w2. cbn. apply lookup_insert_eq. }
  rewrite (bind_run _ _ _ _ _ (cb_deref_run _ _ _ Hccb2)).
  rewrite (bind_run _ _ _ _ _ (cb_deref_run _ _ _ Hl)).
  destruct (CreatePatch o _) as [patch [e|]]; [done|].
  destruct (String.length patch =? 0)%nat.
  - unfold Fprintln. erewrite bind_run by apply cb_Write_run.
    change (streams w2) with (streams w).
    by destruct (io.Write _ _ _) as [[n e] s].
  - pose proof (Patch_run cs name MergePatchType patch w2 o Hup Ho) as HP.
    destruct (applyPatch MergePatchType patch o) as [o' [e|]];
      rewrite (bind_run _ _ _ _ _ HP); [done|].
    cbn beta iota.
    erewrite bind_run; cycle 1.
    { apply cb_deref_run. cbn [heap].
      pose proof (fresh_unused w2) as Hf.
      destruct (decide (fresh (dom (heap w2)) = ccb)) as [E|E].
      - rewrite E, Hccb2 in Hf. discriminate Hf.
      - rewrite lookup_insert_ne; [exact Hccb2|exact E]. }
    unfold Fprintf. erewrite bind_run by apply cb_Write_run.
    cbn [streams]. change (streams w2) with (streams w).
    by destruct (io.Write _ _ _) as [[n e] s].
Qed.

Lemma Get_fails cs name w e :
  outage w = Some e ∨
  (outage w = None ∧ server w !! name = None ∧ e = notFound name) →
  Get cs name w =
  (Returns (None, Some e),
   mkWorld (heap w) (streams w) (server w) (outage w)
           (requests w ++ [ReqGet name])).
Proof.
  unfold Get, request, modify, get, mbind, Go_bind. cbn.
  intros [Hout|(Hup & Hno & ->)]; [by rewrite Hout|by rewrite Hup, Hno].
Qed.

Lemma fresh_other (h : gmap loc ClusterBuilder) (l : loc) (x o : ClusterBuilder) :
  h !! l = Some x → <[fresh (dom h) := o]> h !! l = Some x.
Proof.
  intros Hl. rewrite lookup_insert_ne; [done|].
  intros E. assert (Hf : h !! fresh (dom h) = None)
    by apply not_elem_of_dom, is_fresh.
  rewrite E, Hl in Hf. discriminate Hf.
Qed.

Lemma desired_same (o : ClusterBuilder) (stack store : string) :
  (stack = "" ∨ stack = corev1.Name (Stack (builderSpec (Spec o)))) →
  (store = "" ∨ store = corev1.Name (Store (builderSpec (Spec o)))) →
  desired o stack store None = o.
Proof.
  intros Hs Ht. unfold desired.
  assert (E1 : (if (stack =? "")%string then o else setStackName stack o) = o).
  { destruct (String.eqb_spec stack "") as [E|E]; [done|].
    destruct Hs as [-> | ->]; [done|].
    destruct o as [tm om [[tag sta sto ord] sa] st]. by destruct sta. }
  rewrite E1.
  destruct (String.eqb_spec store "") as [E|E]; [done|].
  destruct Ht as [-> | ->]; [done|].
  destruct o as [tm om [[tag sta sto ord] sa] st]. by destruct sto.
Qed.

(** When no client set can be had, [RunE] returns the error of the
    provider and does nothing else, whatever its arguments. *)
Theorem RunE_client_set_error (provider : ClientSetProvider)
    (stack store order : string) (cmd : Command) (args : list string)
    (w : World) (cs : option ClientSet) (e : error) :
  GetClientSet provider "" = (cs, Some e) →
  RunE provider stack store order cmd args w = (Returns (Some e), w).
Proof. intros Hcs. unfold RunE. rewrite Hcs. by destruct cs. Qed.

(** When the server cannot be reached or has no cluster builder of the
    name, [RunE] returns that error after the [Get] request: it writes
    nothing and asks for no patch. *)
Theorem RunE_get_error (provider : ClientSetProvider)
    (stack store order : string) (cmd : Command) (name : string)
    (rest : list string) (w : World) (cs : ClientSet) (e : error) :
  GetClientSet provider "" = (Some cs, None) →
  (outage w = Some e ∨
   (outage w = None ∧ server w !! name = None ∧ e = notFound name)) →
  RunE provider stack store order cmd (name :: rest) w =
  (Returns (Some e),
   mkWorld (heap w) (streams w) (server w) (outage w)
           (requests w ++ [ReqGet name])).
Proof.
  intros Hcs Hfail. unfold RunE. rewrite Hcs.
  by rewrite (bind_run _ _ _ _ _ (Get_fails cs _ _ _ Hfail)).
Qed.

(** When the file of the order cannot be read, [RunE] returns the error of
    [ReadOrder]: the patch is not computed, nothing is written and the
    server is asked for no patch. *)
Theorem RunE_order_error (provider : ClientSetProvider)
    (stack store order : string) (cmd : Command) (name : string)
    (rest : list string) (w : World) (cs : ClientSet) (o : ClusterBuilder)
    (e : error) :
  GetClientSet provider "" = (Some cs, None) →
  outage w = None →
  server w !! name = Some o →
  order ≠ "" →
  (ReadOrder order).2 = Some e →
  ∃ w',
    RunE provider stack store order cmd (name :: rest) w
    = (Returns (Some e), w') ∧
    requests w' = requests w ++ [ReqGet name] ∧
    streams w' = streams w ∧ server w' = server w.
Proof.
  intros Hcs Hup Ho Hne%String.eqb_neq Herr.
  rewrite (RunE_run _ _ _ _ _ _ _ _ _ _ Hcs Hup Ho). cbn zeta.
  unfold orderError. rewrite Hne, Herr. by eexists.
Qed.

(** When the patch cannot be computed, [RunE] returns the error of
    [CreatePatch]: nothing is written and the server is asked for no
    patch. *)
Theorem RunE_create_patch_error (provider : ClientSetProvider)
    (stack store order : string) (cmd : Command) (name : string)
    (rest : list string) (w : World) (cs : ClientSet) (o : ClusterBuilder)
    (patch : string) (e : error) :
  GetClientSet provider "" = (Some cs, None) →
  outage w = None →
  server w !! name = Some o →
  orderError order = None →
  CreatePatch o (desired o stack store (orderAssigned order))
    = (patch, Some e) →
  ∃ w',
    RunE provider stack store order cmd (name :: rest) w
    = (Returns (Some e), w') ∧
    requests w' = requests w ++ [ReqGet name] ∧
    streams w' = streams w ∧ server w' = server w.
Proof.
  intros Hcs Hup Ho Hord Hpatch.
  rewrite (RunE_run _ _ _ _ _ _ _ _ _ _ Hcs Hup Ho). cbn zeta.
  rewrite Hord, Hpatch. by eexists.
Qed.

(** With a patch that is not empty and that the server accepts, [RunE]
    asks for the object and then once for the merge patch with exactly the
    computed bytes, the server stores the patched object, and one line is
    written to the output of the command, made from the format
    ["%s" patched] and the name of the observed object; the result is the
    error of that write. *)
Theorem RunE_patches (provider : ClientSetProvider)
    (stack store order : string) (cmd : Command) (name : string)
    (rest : list string) (w : World) (cs : ClientSet) (o o' : ClusterBuilder)
    (patch : string) :
  GetClientSet provider "" = (Some cs, None) →
  outage w = None →
  server w !! name = Some o →
  orderError order = None →
  CreatePatch o (desired o stack store (orderAssigned order)) = (patch, None) →
  patch ≠ "" →
  applyPatch MergePatchType patch o = (o', None) →
  let line := Sprintf (dquote +:+ "%s" +:+ dquote +:+ " patched" +:+ newline)
                      [ArgString (ObjectMeta_Name (objectMeta o))] in
  ∃ w',
    RunE provider stack store order cmd (name :: rest) w
    = (Returns (io.Write (OutOrStdout cmd) line (streams w)).1.2, w') ∧
    requests w'
    = requests w ++ [ReqGet name; ReqPatch name MergePatchType patch] ∧
    server w' = <[name := o']> (server w) ∧
    calls (streams w') = calls (streams w) ++ [(OutOrStdout cmd, line)].
Proof.
  intros Hcs Hup Ho Hord Hpatch Hne Happly.
  rewrite (RunE_run _ _ _ _ _ _ _ _ _ _ Hcs Hup Ho). cbn zeta.
  rewrite Hord, Hpatch.
  destruct patch as [|c patch]; [done|]. cbn [String.length Nat.eqb].
  rewrite Happly. eexists. split; [reflexivity|]. cbn.
  split; [by rewrite <- app_assoc|]. split; [done|]. apply Write_calls.
Qed.

(** When the server rejects the patch, [RunE] returns the error of the
    server: the line that reports a patched object is not written and the
    server keeps what it stored. *)
Theorem RunE_patch_rejected (provider : ClientSetProvider)
    (stack store order : string) (cmd : Command) (name : string)
    (rest : list string) (w : World) (cs : ClientSet) (o o' : ClusterBuilder)
    (patch : string) (e : error) :
  GetClientSet provider "" = (Some cs, None) →
  outage w = None →
  server w !! name = Some o →
  orderError order = None →
  CreatePatch o (desired o stack store (orderAssigned order)) = (patch, None) →
  patch ≠ "" →
  applyPatch MergePatchType patch o = (o', Some e) →
  ∃ w',
    RunE provider stack store order cmd (name :: rest) w
    = (Returns (Some e), w') ∧
    requests w'
    = requests w ++ [ReqGet name; ReqPatch name MergePatchType patch] ∧
    server w' = server w ∧ streams w' = streams w.
Proof.
  intros Hcs Hup Ho Hord Hpatch Hne Happly.
  rewrite (RunE_run _ _ _ _ _ _ _ _ _ _ Hcs Hup Ho). cbn zeta.
  rewrite Hord, Hpatch.
  destruct patch as [|c patch]; [done|]. cbn [String.length Nat.eqb].
  rewrite Happly. eexists. split; [reflexivity|]. cbn.
  split; [by rewrite <- app_assoc|]. done.
Qed.

(** Every run of [RunE] on a name, with a provider that gives a client
    set or an error: what it returns and what it leaves behind. *)
Lemma RunE_summary provider stack store order cmd name rest w :
  GetClientSet provider "" ≠ (None, None) →
  ∃ err w' rs,
    RunE provider stack store order cmd (name :: rest) w = (Returns err, w') ∧
    (∀ l x, heap w !! l = Some x → heap w' !! l = Some x) ∧
    outage w' = outage w ∧
    requests w' = requests w ++ rs ∧
    (rs = [] ∨ rs = [ReqGet name] ∨
     ∃ patch, patch ≠ "" ∧
              rs = [ReqGet name; ReqPatch name MergePatchType patch]) ∧
    (rs = [] ∨ rs = [ReqGet name] → server w' = server w) ∧
    (streams w' = streams w ∨
     ∃ line, streams w' = (io.Write (OutOrStdout cmd) line (streams w)).2 ∧
             err = (io.Write (OutOrStdout cmd) line (streams w)).1.2).
Proof.
  intros Hprov.
  destruct (GetClientSet provider "") as [[cs|] [e|]] eqn:Hcs; [| | |done].
  { exists (Some e), w, []. unfold RunE. rewrite Hcs, app_nil_r.
    repeat split; auto. }
  2:{ exists (Some e), w, []. unfold RunE. rewrite Hcs, app_nil_r.
      repeat split; auto. }
  assert (Hget : ∀ e, outage w = Some e ∨
                      (outage w = None ∧ server w !! name = None
                       ∧ e = notFound name) →
    ∃ err w' rs,
      RunE provider stack store order cmd (name :: rest) w = (Returns err, w') ∧
      (∀ l x, heap w !! l = Some x → heap w' !! l = Some x) ∧
      outage w' = outage w ∧
      requests w' = requests w ++ rs ∧
      (rs = [] ∨ rs = [ReqGet name] ∨
       ∃ patch, patch ≠ "" ∧
                rs = [ReqGet name; ReqPatch name MergePatchType patch]) ∧
      (rs = [] ∨ rs = [ReqGet name] → server w' = server w) ∧
      (streams w' = streams w ∨
       ∃ line, streams w' = (io.Write (OutOrStdout cmd) line (streams w)).2 ∧
               err = (io.Write (OutOrStdout cmd) line (streams w)).1.2)).
  { intros e Hfail. eexists (Some e), _, [ReqGet name]. unfold RunE. rewrite Hcs.
    rewrite (bind_run _ _ _ _ _ (Get_fails cs _ _ _ Hfail)).
    split; [reflexivity|]. cbn. repeat split; auto. }
  destruct (outage w) as [e|] eqn:Hup; [by apply (Hget e); left|].
  destruct (server w !! name) as [o|] eqn:Ho;
    [|by apply (Hget (notFound name)); right].
  clear Hget.
  rewrite (RunE_run _ _ _ _ _ _ _ _ _ _ Hcs Hup Ho). cbn zeta.
  set (ccb := fresh (dom (heap w))).
  set (d := desired o stack store (orderAssigned order)).
  set (h2 := <[fresh (dom (<[ccb := o]> (heap w))) := d]> (<[ccb := o]> (heap w))).
  assert (Hh2 : ∀ l x, heap w !! l = Some x → h2 !! l = Some x).
  { intros l x Hl. subst h2 ccb. by do 2 apply fresh_other. }
  destruct (orderError order) as [e|].
  { eexists (Some e), _, [ReqGet name]. split; [reflexivity|]. cbn.
    rewrite Hup. repeat split; auto. }
  destruct (CreatePatch o d) as [patch [e|]].
  { eexists (Some e), _, [ReqGet name]. split; [reflexivity|]. cbn.
    rewrite Hup. repeat split; auto. }
  destruct patch as [|c patch]; cbn [String.length Nat.eqb].
  { eexists _, _, [ReqGet name]. split; [reflexivity|]. cbn.
    rewrite Hup. repeat split; eauto. }
  destruct (applyPatch MergePatchType (String c patch) o) as [o' [e|]].
  - eexists (Some e), _, [ReqGet name; ReqPatch name MergePatchType (String c patch)].
    split; [reflexivity|]. cbn. rewrite Hup, <- app_assoc.
    split; [done|]. split; [done|]. split; [done|].
    split; [right; right; by exists (String c patch)|]. split; [|by left].
    by intros [|].
  - eexists _, _, [ReqGet name; ReqPatch name MergePatchType (String c patch)].
    split; [reflexivity|]. cbn. rewrite Hup, <- app_assoc.
    split; [intros l x Hl; by apply fresh_other, Hh2|].
    split; [done|]. split; [done|].
    split; [right; right; by exists (String c patch)|]. split; [by intros [|]|].
    right. by eexists.
Qed.

(** [RunE] on a name does not panic, and every object that was on the heap
    before the run is unchanged after it: the command only makes new
    objects. *)
Theorem RunE_returns (provider : ClientSetProvider)
    (stack store order : string) (cmd : Command) (name : string)
    (rest : list string) (w : World) :
  GetClientSet provider "" ≠ (None, None) →
  ∃ err w',
    RunE provider stack store order cmd (name :: rest) w = (Returns err, w') ∧
    ∀ l x, heap w !! l = Some x → heap w' !! l = Some x.
Proof.
  intros Hprov.
  destruct (RunE_summary provider stack store order cmd name rest w Hprov)
    as (err & w' & rs & E & Hheap & _).
  by exists err, w'.
Qed.

(** The requests of a run of [RunE] are none, or the [Get] of the name, or
    that [Get] followed by one merge patch of the same name with bytes that
    are not empty; the server stores what it stored unless the patch was
    requested. *)
Theorem RunE_requests (provider : ClientSetProvider)
    (stack store order : string) (cmd : Command) (name : string)
    (rest : list string) (w : World) :
  GetClientSet provider "" ≠ (None, None) →
  ∃ rs,
    requests (RunE provider stack store order cmd (name :: rest) w).2
    = requests w ++ rs ∧
    (rs = [] ∨ rs = [ReqGet name] ∨
     ∃ patch, patch ≠ "" ∧
              rs = [ReqGet name; ReqPatch name MergePatchType patch]) ∧
    (rs = [] ∨ rs = [ReqGet name] →
     server (RunE provider stack store order cmd (name :: rest) w).2
     = server w).
Proof.
  intros Hprov.
  destruct (RunE_summary provider stack store order cmd name rest w Hprov)
    as (err & w' & rs & E & _ & _ & Hreq & Hshape & Hserver & _).
  exists rs. by rewrite E.
Qed.

(** A run of [RunE] writes at most once, to the output of the command, and
    when it writes, what it returns is the error of the write. *)
Theorem RunE_writes (provider : ClientSetProvider)
    (stack store order : string) (cmd : Command) (name : string)
    (rest : list string) (w : World) :
  GetClientSet provider "" ≠ (None, None) →
  let run := RunE provider stack store order cmd (name :: rest) w in
  streams run.2 = streams w ∨
  ∃ line,
    streams run.2 = (io.Write (OutOrStdout cmd) line (streams w)).2 ∧
    run.1 = Returns (io.Write (OutOrStdout cmd) line (streams w)).1.2.
Proof.
  intros Hprov. cbn zeta.
  destruct (RunE_summary provider stack store order cmd name rest w Hprov)
    as (err & w' & rs & E & _ & _ & _ & _ & _ & [Hs|(line & Hs & Herr)]).
  - left. by rewrite E.
  - right. exists line. by rewrite E, Herr.
Qed.

(** With the order flag empty and the stack and store flags empty or equal
    to the names the observed object already has, the desired object is a
    new object with the value of the observed one. *)
Theorem patched_current_values (ccb : loc) (stack store : string)
    (w : World) (o : ClusterBuilder) :
  heap w !! ccb = Some o →
  (stack = "" ∨ stack = corev1.Name (Stack (builderSpec (Spec o)))) →
  (store = "" ∨ store = corev1.Name (Store (builderSpec (Spec o)))) →
  ∃ patchedCcb w',
    patched ccb stack store "" w = (Returns (patchedCcb, None), w') ∧
    patchedCcb ≠ ccb ∧
    heap w' !! patchedCcb = Some o.
Proof.
  intros Ho Hs Ht. rewrite (patched_run _ _ _ _ _ _ Ho). cbn zeta.
  cbn [String.eqb]. rewrite (desired_same _ _ _ Hs Ht).
  eexists _, _. split; [reflexivity|]. cbn.
  split; [|apply lookup_insert_eq].
  intros E. pose proof (fresh_unused w) as Hf. rewrite E in Hf. congruence.
Qed.

(** When the flags ask for what the observed object already has and
    [CreatePatch] gives the empty patch for equal objects, [RunE] asks the
    server for the object only, and writes the line [nothing to patch]. *)
Theorem RunE_noop (provider : ClientSetProvider) (stack store : string)
    (cmd : Command) (name : string) (rest : list string) (w : World)
    (cs : ClientSet) (o : ClusterBuilder) :
  GetClientSet provider "" = (Some cs, None) →
  outage w = None →
  server w !! name = Some o →
  (stack = "" ∨ stack = corev1.Name (Stack (builderSpec (Spec o)))) →
  (store = "" ∨ store = corev1.Name (Store (builderSpec (Spec o)))) →
  CreatePatch o o = ("", None) →
  ∃ w',
    RunE provider stack store "" cmd (name :: rest) w
    = (Returns (io.Write (OutOrStdout cmd) ("nothing to patch" +:+ newline)
                         (streams w)).1.2, w') ∧
    requests w' = requests w ++ [ReqGet name] ∧
    server w' = server w ∧
    calls (streams w')
    = calls (streams w)
      ++ [(OutOrStdout cmd, "nothing to patch" +:+ newline)].
Proof.
  intros Hcs Hup Ho Hs Ht Hpatch.
  rewrite (RunE_run _ _ _ _ _ _ _ _ _ _ Hcs Hup Ho). cbn zeta.
  unfold orderError, orderAssigned. cbn [String.eqb].
  rewrite (desired_same _ _ _ Hs Ht), Hpatch. cbn [String.length Nat.eqb].
  eexists. split; [reflexivity|]. cbn -[String.append].
  split; [done|]. split; [done|]. apply Write_calls.
Qed.

(** With an order flag, [patched] returns the error of [ReadOrder], if any;
    the order of the desired object is the one read when the file was read
    and the observed one when it was not. *)
Theorem patched_order (ccb : loc) (stack store order : string) (w : World)
    (o : ClusterBuilder) :
  heap w !! ccb = Some o →
  order ≠ "" →
  ∃ patchedCcb d w',
    patched ccb stack store order w
    = (Returns (patchedCcb, (ReadOrder order).2), w') ∧
    heap w' !! patchedCcb = Some d ∧
    Order (builderSpec (Spec d))
    = match (ReadOrder order).2 with
      | None => (ReadOrder order).1
      | Some _ => Order (builderSpec (Spec o))
      end.
Proof.
  intros Ho Hne%String.eqb_neq. rewrite (patched_run _ _ _ _ _ _ Ho). cbn zeta.
  rewrite Hne. eexists _, _, _. split; [reflexivity|]. cbn [heap].
  split; [apply lookup_insert_eq|].
  unfold desired.
  destruct (ReadOrder order) as [orderEntries [e|]]; cbn [snd fst]; [|done].
  by destruct (stack =? "")%string, (store =? "")%string.
Qed.

End patch_more.

(** * The further properties on the sample inputs *)

Section helper_more_examples.
Import io schema cobra commands sample.
#[local] Existing Instance plainSprintf.
#[local] Existing Instance apiNames.
#[local] Existing Instance printers.

Lemma PrintObjs_no_output_witness :
  output narrativeHelper = false ∧
  PrintObjs narrativeHelper [0; 1; 7] world = (Returns None, world).
Proof.
  split; [reflexivity|].
  apply (PrintObjs_no_output narrativeHelper [0; 1; 7] world). reflexivity.
Defined.

Lemma PrintObjs_heap_witness :
  (∀ obj, obj ∈ [0; 1] → is_Some (heap world !! obj)) ∧
  ∃ err w', PrintObjs outputHelper [0; 1] world = (Returns err, w') ∧
            heap w' = heap world.
Proof.
  assert (Hall : ∀ obj, obj ∈ [0; 1] → is_Some (heap world !! obj)).
  { intros obj Hin.
    apply elem_of_cons in Hin as [->|Hin]; [by eexists|].
    apply list_elem_of_singleton in Hin as ->. by eexists. }
  split; [exact Hall|].
  apply (PrintObjs_heap outputHelper [0; 1] world Hall).
Defined.

Lemma PrintResult_silent_witness :
  output outputHelper = true ∧
  ∃ w', PrintResult outputHelper "created" [] world = (Returns None, w') ∧
        content (streams w') = content (streams world).
Proof.
  split; [reflexivity|].
  destruct (PrintResult_silent outputHelper "created" [] world eq_refl)
    as (w' & E & Hc & _).
  by exists w'.
Defined.

Lemma PrintStatus_delivers_witness :
  OutOrErrWriter outputHelper = Stream 2 ∧
  ∃ w', PrintStatus outputHelper "waiting" [] closedError
        = (Returns (Some "write /dev/stderr: broken pipe"), w').
Proof.
  split; [reflexivity|].
  destruct (PrintStatus_delivers outputHelper "waiting" [] closedError 2
              eq_refl) as (w' & E & _).
  by exists w'.
Defined.

Lemma PrintObj_prints_presented_witness :
  output outputHelper = true ∧ heap world !! 0 = Some image ∧
  presented outputHelper image = Some image ∧
  ∃ w', PrintObj outputHelper 0 world = (Returns None, w') ∧
        heap w' = heap world.
Proof.
  do 3 (split; [reflexivity|]).
  destruct (PrintObj_prints_presented outputHelper 0 world image image
              eq_refl eq_refl eq_refl) as (w' & E & _ & Hheap).
  by exists w'.
Defined.

Lemma PrintObj_printer_error_witness :
  output brokenHelper = true ∧ heap world !! 0 = Some image ∧
  presented brokenHelper image = Some image ∧
  serialize (objPrinter brokenHelper) image = ("", Some "unable to serialize") ∧
  ∃ w', PrintObj brokenHelper 0 world
        = (Returns (Some "unable to serialize"), w') ∧
        streams w' = streams world.
Proof.
  do 4 (split; [reflexivity|]).
  destruct (PrintObj_printer_error brokenHelper 0 world image image ""
              "unable to serialize" eq_refl eq_refl eq_refl eq_refl)
    as (w' & E & Hs & _).
  by exists w'.
Defined.

Lemma flags_resolve_set_witness :
  Flags flaggedCommand !! "output" = Some (pflag.mkFlag "string" "yaml" true) ∧
  getStringFlag "output" flaggedCommand = ("yaml", None).
Proof.
  split; [reflexivity|].
  apply (flags_resolve_set flaggedCommand "output"
           (pflag.mkFlag "string" "yaml" true) eq_refl eq_refl).
  reflexivity.
Defined.

Lemma flags_resolve_type_mismatch_witness :
  Flags oddCommand !! "wait" = Some (pflag.mkFlag "string" "yes" true) ∧
  ∃ e, getBoolFlag "wait" oddCommand = (false, Some e).
Proof.
  split; [reflexivity|].
  apply (flags_resolve_type_mismatch oddCommand "wait"
           (pflag.mkFlag "string" "yes" true) eq_refl eq_refl).
  discriminate.
Defined.

Lemma NewCommandHelper_modes_witness :
  ∃ ch, NewCommandHelper flaggedCommand = (Some ch, None) ∧
        dryRun ch = true ∧ wait ch = false ∧ output ch = true.
Proof.
  assert (Hnew : ∃ ch, NewCommandHelper flaggedCommand = (Some ch, None))
    by (eexists; reflexivity).
  destruct Hnew as [ch Hnew]. exists ch. split; [exact Hnew|].
  destruct (NewCommandHelper_modes flaggedCommand ch Hnew)
    as (Hd & Hw & Ho & _).
  rewrite Hd, Hw. do 2 (split; [reflexivity|]). apply Ho. discriminate.
Defined.

Lemma registry_versions_witness :
  getTypeToGVKLookup !! "*v1alpha1.Image"
  = Some (mkGVK "kpack.io" "v1alpha1" "Image") ∧
  Version (mkGVK "kpack.io" "v1alpha1" "Image") ≠ "".
Proof.
  assert (Hreg : getTypeToGVKLookup !! "*v1alpha1.Image"
                 = Some (mkGVK "kpack.io" "v1alpha1" "Image"))
    by (vm_compute; reflexivity).
  split; [exact Hreg|].
  apply (registry_versions "*v1alpha1.Image"
           (mkGVK "kpack.io" "v1alpha1" "Image") Hreg).
Defined.

End helper_more_examples.

Section patch_more_examples.
Import io cobra v1alpha1 clusterbuilder samplePatch.
#[local] Existing Instance sample.plainSprintf.
#[local] Existing Instance decls.

Lemma RunE_client_set_error_witness :
  GetClientSet noProvider "" = (None, Some "no kubeconfig") ∧
  RunE (H1 := collaborators) noProvider "tiny" "" "" command ["my-builder"] world
  = (Returns (Some "no kubeconfig"), world).
Proof.
  split; [reflexivity|].
  apply (RunE_client_set_error (H1 := collaborators) noProvider "tiny" "" ""
           command ["my-builder"] world None "no kubeconfig" eq_refl).
Defined.

Lemma RunE_get_error_witness :
  outage unreachable = Some "connection refused" ∧
  requests (RunE (H1 := collaborators) provider "tiny" "" "" command
                 ["my-builder"] unreachable).2
  = [ReqGet "my-builder"].
Proof.
  split; [reflexivity|].
  rewrite (RunE_get_error (H1 := collaborators) provider "tiny" "" "" command
             "my-builder" [] unreachable (mkClientSet "default")
             "connection refused" eq_refl (or_introl eq_refl)).
  reflexivity.
Defined.

Lemma RunE_order_error_witness :
  (ReadOrder (Collaborators := collaborators) "missing.yaml").2
  = Some "open: no such file or directory" ∧
  ∃ w', RunE (H1 := collaborators) provider "" "" "missing.yaml" command
             ["my-builder"] world
        = (Returns (Some "open: no such file or directory"), w') ∧
        requests w' = [ReqGet "my-builder"].
Proof.
  split; [reflexivity|].
  destruct (RunE_order_error (H1 := collaborators) provider "" "" "missing.yaml"
              command "my-builder" [] world (mkClientSet "default") builder
              "open: no such file or directory"
              eq_refl eq_refl eq_refl ltac:(discriminate) eq_refl)
    as (w' & E & Hreq & _).
  by exists w'.
Defined.

Lemma RunE_create_patch_error_witness :
  ∃ w', RunE (H1 := noPatch) provider "tiny" "" "" command ["my-builder"] world
        = (Returns (Some "cannot marshal"), w') ∧
        streams w' = streams world.
Proof.
  destruct (RunE_create_patch_error (H1 := noPatch) provider "tiny" "" ""
              command "my-builder" [] world (mkClientSet "default") builder
              "" "cannot marshal" eq_refl eq_refl eq_refl eq_refl eq_refl)
    as (w' & E & _ & Hs & _).
  by exists w'.
Defined.

Lemma RunE_patches_witness :
  ∃ w', (RunE (H1 := collaborators) provider "tiny" "" "" command
              ["my-builder"] world).2 = w' ∧
        requests w'
        = [ReqGet "my-builder";
           ReqPatch "my-builder" MergePatchType
                    "{spec:{stack:tiny,store:default}}"].
Proof.
  destruct (RunE_patches (H1 := collaborators) provider "tiny" "" "" command
              "my-builder" [] world (mkClientSet "default") builder builder
              "{spec:{stack:tiny,store:default}}"
              eq_refl eq_refl eq_refl eq_refl eq_refl ltac:(discriminate)
              eq_refl)
    as (w' & E & Hreq & _).
  exists w'. by rewrite E.
Defined.

Lemma RunE_patch_rejected_witness :
  ∃ w', RunE (H1 := rejecting) provider "tiny" "" "" command ["my-builder"] world
        = (Returns (Some "admission webhook denied the request"), w') ∧
        server w' = server world.
Proof.
  destruct (RunE_patch_rejected (H1 := rejecting) provider "tiny" "" "" command
              "my-builder" [] world (mkClientSet "default") builder builder
              "{spec:{stack:tiny,store:default}}"
              "admission webhook denied the request"
              eq_refl eq_refl eq_refl eq_refl eq_refl ltac:(discriminate)
              eq_refl)
    as (w' & E & _ & Hserver & _).
  by exists w'.
Defined.

Lemma RunE_returns_witness :
  GetClientSet provider "" ≠ (None, None) ∧
  ∃ err w', RunE (H1 := collaborators) provider "tiny" "default" "order.yaml"
                 command ["my-builder"] fetched = (Returns err, w') ∧
            heap w' !! 0 = Some builder.
Proof.
  split; [discriminate|].
  destruct (RunE_returns (H1 := collaborators) provider "tiny" "default"
              "order.yaml" command "my-builder" [] fetched ltac:(discriminate))
    as (err & w' & E & Hheap).
  exists err, w'. split; [exact E|]. apply Hheap. reflexivity.
Defined.

Lemma RunE_requests_witness :
  GetClientSet provider "" ≠ (None, None) ∧
  ∃ rs, requests (RunE (H1 := collaborators) provider "" "" "" command
                       ["my-builder"] fetched).2
        = requests fetched ++ rs.
Proof.
  split; [discriminate|].
  destruct (RunE_requests (H1 := collaborators) provider "" "" "" command
              "my-builder" [] fetched ltac:(discriminate))
    as (rs & Hreq & _).
  by exists rs.
Defined.

Lemma RunE_writes_witness :
  GetClientSet provider "" ≠ (None, None) ∧
  (streams (RunE (H1 := collaborators) provider "" "" "" command
                 ["my-builder"] unreachable).2 = streams unreachable ∨
   ∃ line,
     streams (RunE (H1 := collaborators) provider "" "" "" command
                   ["my-builder"] unreachable).2
     = (io.Write (OutOrStdout command) line (streams unreachable)).2 ∧
     (RunE (H1 := collaborators) provider "" "" "" command
           ["my-builder"] unreachable).1
     = Returns (io.Write (OutOrStdout command) line (streams unreachable)).1.2).
Proof.
  split; [discriminate|].
  apply (RunE_writes (H1 := collaborators) provider "" "" "" command
           "my-builder" [] unreachable).
  discriminate.
Defined.

Lemma patched_current_values_witness :
  heap fetched !! 0 = Some builder ∧
  ∃ patchedCcb w',
    patched (H1 := collaborators) 0 "base" "default" "" fetched
    = (Returns (patchedCcb, None), w') ∧
    heap w' !! patchedCcb = Some builder.
Proof.
  split; [reflexivity|].
  destruct (patched_current_values (H1 := collaborators) 0 "base" "default"
              fetched builder eq_refl (or_intror eq_refl) (or_intror eq_refl))
    as (l & w' & E & _ & Hcopy).
  by exists l, w'.
Defined.

Lemma RunE_noop_witness :
  CreatePatch (Collaborators := collaborators) builder builder = ("", None) ∧
  ∃ w', (RunE (H1 := collaborators) provider "base" "" "" command
              ["my-builder"] world).2 = w' ∧
        requests w' = [ReqGet "my-builder"].
Proof.
  assert (Hpatch : CreatePatch (Collaborators := collaborators) builder builder
                   = ("", None)) by reflexivity.
  split; [exact Hpatch|].
  destruct (RunE_noop (H1 := collaborators) provider "base" "" command
              "my-builder" [] world (mkClientSet "default") builder
              eq_refl eq_refl eq_refl (or_intror eq_refl) (or_introl eq_refl)
              Hpatch)
    as (w' & E & Hreq & _).
  exists w'. by rewrite E.
Defined.

Lemma patched_order_witness :
  heap fetched !! 0 = Some builder ∧
  ∃ patchedCcb d w',
    patched (H1 := collaborators) 0 "" "" "order.yaml" fetched
    = (Returns (patchedCcb, None), w') ∧
    heap w' !! patchedCcb = Some d ∧
    Order (builderSpec (Spec d)) = [["org.go"; "org.node"]].
Proof.
  split; [reflexivity|].
  destruct (patched_order (H1 := collaborators) 0 "" "" "order.yaml" fetched
              builder eq_refl ltac:(discriminate))
    as (l & d & w' & E & Hd & Hord).
  by exists l, d, w'.
Defined.

End patch_more_examples.
